(** * SmartScale: the scale ingestion core (src/bluetooth.js)

    A shallow embedding of the Web Bluetooth logic of the SmartScale web
    application: the frame decoder [parseScaleData], the metric helpers
    [calculateBMI] and [getBMICategory], and the negotiation and subscription
    routine [subscribeToWeight].

    JavaScript numbers are IEEE 754 binary64 values; they are modelled by the
    primitive floats of the prover, so that every product, quotient and
    comparison of the source is computed exactly as the engine computes it.
    Promise-returning platform calls are modelled in a state and exception
    monad over the state of the GATT connection. *)

From Stdlib Require Import ZArith QArith Qround Qabs List String Bool Lia.
From Stdlib Require Import Uint63 Lqa.
From Stdlib Require Import Strings.Byte Floats.
From Stdlib Require Import Sorting.Sorted Sorting.Permutation.
Import ListNotations.

Set Warnings "-inexact-float".
Local Open Scope Z_scope.

(** ** The JavaScript fragment the source relies on *)

Module JS.

(** Exceptions the modelled code can meet. *)
Inductive Error : Type :=
| RangeError
| DOMException (name : string).

(** Outcome of evaluating an expression: a value, or an abrupt completion.
    Awaiting a rejected promise is an abrupt completion with its reason. *)
Inductive completion (A : Type) : Type :=
| Normal (a : A)
| Throw (e : Error).
Arguments Normal {A} a.
Arguments Throw {A} e.

Definition is_throw {A} (c : completion A) : bool :=
  match c with Throw _ => true | Normal _ => false end.

(** The values that reach the metric helpers: a number, or an absent value
    ([latestWeight] starts as [null]; a missing field reads [undefined]). *)
Inductive Value : Type :=
| Undefined
| Null
| Num (x : float).

(** [ToBoolean]: absent values, both zeros and NaN are falsy. *)
Definition ToBoolean (v : Value) : bool :=
  match v with
  | Undefined | Null => false
  | Num x => negb (is_zero x || is_nan x)
  end.

(** [ToNumber]. *)
Definition ToNumber (v : Value) : float :=
  match v with
  | Undefined => nan
  | Null => zero
  | Num x => x
  end.

(** An integer as a number (exact up to 2^53 in magnitude). *)
Definition of_Z (z : Z) : float :=
  if z <? 0 then (- of_uint63 (Uint63.of_Z (- z)))%float
  else of_uint63 (Uint63.of_Z z).

(** [Math.round]: the integral number closest to [x], ties towards
    +infinity; NaN, the infinities and the zeros are returned unchanged, and
    a negative [x] that rounds to zero gives -0.

    A number of magnitude 2^52 or more is integral already.  Below, adding
    and subtracting 2^52 rounds the magnitude to an integer, ties to even
    (the sum lies in the binade where doubles are the integers); the
    difference between [x] and that integer is exact, and only the tie that
    went down, [x - r = 0.5], has to be moved up. *)
Definition two52 : float := 4503599627370496%float.

Definition Math_round (x : float) : float :=
  if is_nan x || (two52 <=? abs x)%float || (x =? 0)%float then x
  else
    let r := (abs x + two52 - two52)%float in
    let r := if (x <? 0)%float then (- r)%float else r in
    if (x - r =? 0.5)%float then (r + 1)%float else r.

(** The integer [floor (x + 1/2)] for [x = sm * 2^e] with [e < 0]: add half
    a unit, then drop the [- e] fractional bits. *)
Definition round_half_up (sm e : Z) : Z :=
  Z.shiftr (sm + Z.shiftl 1 (- e - 1)) (- e).

(** The same function on the exact value of [x]: a finite non-zero number is
    [(-1)^s * m * 2^e]; with [e >= 0] it is integral, otherwise the result is
    [floor (x + 1/2)], computed on integers.  It is the reference
    [Math_round] is checked against. *)
Definition Math_round_exact (x : float) : float :=
  match Prim2SF x with
  | S754_finite s m e =>
      if 0 <=? e then x
      else
        let n := round_half_up (cond_Zopp s (Zpos m)) e in
        if n =? 0 then (if s then neg_zero else zero) else of_Z n
  | _ => x
  end.

(** The exact rational value of a finite number (0 for the others). *)
Definition to_Q (x : float) : Q :=
  match Prim2SF x with
  | S754_finite s m e =>
      if 0 <=? e then inject_Z (cond_Zopp s (Zpos m) * 2 ^ e)
      else Qmake (cond_Zopp s (Zpos m)) (Z.to_pos (2 ^ (- e)))
  | _ => 0%Q
  end.

End JS.
Import JS.

(** Sequencing of completions: the rest runs only after a normal one. *)
Definition bindC {A B} (c : completion A) (k : A -> completion B) : completion B :=
  match c with
  | Normal a => k a
  | Throw e => Throw e
  end.

Declare Scope completion_scope.
Delimit Scope completion_scope with completion.
Notation "'let!' x ':=' c 'in' k" := (bindC c (fun x => k))
  (at level 10, x name, c at level 100, k at level 200) : completion_scope.

(** ** DataView over the bytes of a notification *)

Definition DataView : Type := list byte.

Definition byteLength (data : DataView) : Z := Z.of_nat (List.length data).

(** [getUint8] raises [RangeError] outside the view. *)
Definition getUint8 (data : DataView) (byteOffset : Z) : completion Z :=
  if byteOffset <? 0 then Throw RangeError
  else
    match nth_error data (Z.to_nat byteOffset) with
    | Some b => Normal (Z.of_N (Byte.to_N b))
    | None => Throw RangeError
    end.

(** [getUint16] reads two bytes, and raises [RangeError] unless both lie in
    the view. *)
Definition getUint16 (data : DataView) (byteOffset : Z) (littleEndian : bool)
  : completion Z :=
  if (byteOffset <? 0) || (byteLength data <? byteOffset + 2) then Throw RangeError
  else
    (let! b0 := getUint8 data byteOffset in
     let! b1 := getUint8 data (byteOffset + 1) in
     Normal (if littleEndian then Z.lor b0 (Z.shiftl b1 8)
             else Z.lor (Z.shiftl b0 8) b1))%completion.

(** ** Identities of the two supported services *)

Definition WEIGHT_SCALE_SERVICE_UUID : Z := 0x181d.
Definition BODY_COMPOSITION_SERVICE_UUID : Z := 0x181b.
Definition WEIGHT_MEASUREMENT_CHAR_UUID : Z := 0x2a9d.
Definition BODY_COMP_MEASUREMENT_CHAR_UUID : Z := 0x2a9c.

(** ** The Web Bluetooth platform

    The platform is outside the repository; the model keeps what the source
    can observe of it.  A peripheral answers each request by resolving or by
    rejecting with an error.  The answers are arbitrary, so that a statement
    quantified over peripherals covers every device; they are fixed per
    request, which loses nothing here, as [subscribeToWeight] makes no request
    twice. *)

Module Gatt.

Record Peripheral : Type := {
  connect_answer : completion unit;
  service_answer : Z -> completion unit;
  characteristic_answer : Z -> Z -> completion unit;
  notify_answer : Z -> Z -> completion unit
}.

(** The objects handed back by the platform. *)
Record Server : Type := { server_device : Peripheral }.
Record Service : Type := { service_server : Server; service_uuid : Z }.
Record Characteristic : Type := {
  characteristic_service : Service;
  characteristic_uuid : Z
}.

Definition identity (c : Characteristic) : Z * Z :=
  (service_uuid (characteristic_service c), characteristic_uuid c).

(** The requests made to the platform, in the order they were made. *)
Inductive Call : Type :=
| Connect
| GetPrimaryService (service : Z)
| GetCharacteristic (service characteristic : Z)
| StartNotifications (service characteristic : Z)
| AddEventListener (service characteristic : Z)
| StopNotifications (service characteristic : Z)
| Disconnect.

(** A [characteristicvaluechanged] listener: from the value of the event to
    what it hands to the application, of type [A], if anything. *)
Definition Listener (A : Type) : Type := DataView -> completion (option A).

(** State of the link: whether the transport connection is open, the
    characteristics with an active notification stream, the listeners
    registered on characteristics, and the requests made so far. *)
Record State (A : Type) : Type := {
  connected : bool;
  notifying : list (Z * Z);
  listeners : list ((Z * Z) * Listener A);
  calls : list Call
}.
Arguments connected {A} _.
Arguments notifying {A} _.
Arguments listeners {A} _.
Arguments calls {A} _.

Definition initial {A} : State A :=
  {| connected := false; notifying := []; listeners := []; calls := [] |}.

Definition record {A} (c : Call) (s : State A) : State A :=
  {| connected := connected s; notifying := notifying s;
     listeners := listeners s; calls := calls s ++ [c] |}.

(** Asynchronous code: state passing, with abrupt completions. *)
Definition M (A B : Type) : Type := State A -> completion B * State A.

(** A zero-argument operation on the link. *)
Definition Teardown (A : Type) : Type := M A unit.

Definition ret {A B} (b : B) : M A B := fun s => (Normal b, s).

Definition bind {A B C} (m : M A B) (k : B -> M A C) : M A C :=
  fun s =>
    match m s with
    | (Normal b, s') => k b s'
    | (Throw e, s') => (Throw e, s')
    end.

(** [try { m } catch (e) { h }]: what [m] did before it threw stays done. *)
Definition try_catch {A B} (m : M A B) (h : Error -> M A B) : M A B :=
  fun s =>
    match m s with
    | (Normal b, s') => (Normal b, s')
    | (Throw e, s') => h e s'
    end.

Definition pair_eqb (a b : Z * Z) : bool :=
  (fst a =? fst b) && (snd a =? snd b).

(** [device.gatt.connect()] *)
Definition connect {A} (device : Peripheral) : M A Server :=
  fun s =>
    let s := record Connect s in
    match connect_answer device with
    | Normal _ =>
        (Normal {| server_device := device |},
         {| connected := true; notifying := notifying s;
            listeners := listeners s; calls := calls s |})
    | Throw e => (Throw e, s)
    end.

(** [server.getPrimaryService(uuid)] *)
Definition getPrimaryService {A} (server : Server) (uuid : Z) : M A Service :=
  fun s =>
    let s := record (GetPrimaryService uuid) s in
    if negb (connected s) then (Throw (DOMException "NetworkError"), s)
    else
      match service_answer (server_device server) uuid with
      | Normal _ => (Normal {| service_server := server; service_uuid := uuid |}, s)
      | Throw e => (Throw e, s)
      end.

(** [service.getCharacteristic(uuid)] *)
Definition getCharacteristic {A} (service : Service) (uuid : Z)
  : M A Characteristic :=
  fun s =>
    let s := record (GetCharacteristic (service_uuid service) uuid) s in
    if negb (connected s) then (Throw (DOMException "NetworkError"), s)
    else
      match characteristic_answer (server_device (service_server service))
              (service_uuid service) uuid with
      | Normal _ =>
          (Normal {| characteristic_service := service;
                     characteristic_uuid := uuid |}, s)
      | Throw e => (Throw e, s)
      end.

(** [characteristic.startNotifications()] *)
Definition startNotifications {A} (c : Characteristic) : M A unit :=
  fun s =>
    let s := record (StartNotifications (fst (identity c)) (snd (identity c))) s in
    if negb (connected s) then (Throw (DOMException "NetworkError"), s)
    else
      match notify_answer
              (server_device (service_server (characteristic_service c)))
              (fst (identity c)) (snd (identity c)) with
      | Normal _ =>
          (Normal tt,
           {| connected := connected s; notifying := identity c :: notifying s;
              listeners := listeners s; calls := calls s |})
      | Throw e => (Throw e, s)
      end.

(** [characteristic.addEventListener('characteristicvaluechanged', listener)] *)
Definition addEventListener {A} (c : Characteristic) (listener : Listener A)
  : M A unit :=
  fun s =>
    let s := record (AddEventListener (fst (identity c)) (snd (identity c))) s in
    (Normal tt,
     {| connected := connected s; notifying := notifying s;
        listeners := listeners s ++ [(identity c, listener)]; calls := calls s |}).

(** [characteristic.stopNotifications()], not awaited: the call itself never
    throws, it hands back a promise, settled here with its outcome.  On a
    closed connection the promise is rejected and nothing changes. *)
Definition stopNotifications {A} (c : Characteristic) : M A (completion unit) :=
  fun s =>
    let s := record (StopNotifications (fst (identity c)) (snd (identity c))) s in
    if negb (connected s) then (Normal (Throw (DOMException "NetworkError")), s)
    else
      (Normal (Normal tt),
       {| connected := connected s;
          notifying := filter (fun p => negb (pair_eqb p (identity c))) (notifying s);
          listeners := listeners s; calls := calls s |}).

(** [server.disconnect()]: closes the connection, which ends every
    notification stream; on a closed connection it does nothing. *)
Definition disconnect {A} (server : Server) : M A unit :=
  fun s =>
    let s := record Disconnect s in
    (Normal tt,
     {| connected := false; notifying := [];
        listeners := listeners s; calls := calls s |}).

(** The peripheral notifies a new value of a characteristic: while its
    notification stream is active, the listeners registered on it run, in the
    order of registration. *)
Definition notify {A} (characteristic : Z * Z) (value : DataView) (s : State A)
  : list (completion (option A)) :=
  if connected s && existsb (pair_eqb characteristic) (notifying s)
  then map (fun l => snd l value)
           (filter (fun l => pair_eqb (fst l) characteristic) (listeners s))
  else [].

End Gatt.
Import Gatt.

Declare Scope gatt_scope.
Delimit Scope gatt_scope with gatt.
Notation "'await' x '<-' m ';' k" := (Gatt.bind m (fun x => k))
  (at level 10, x name, m at level 100, k at level 200) : gatt_scope.
Notation "'call' m ';' k" := (Gatt.bind m (fun _ => k))
  (at level 10, m at level 100, k at level 200) : gatt_scope.

(** ** The frame decoder *)

Record Measurement : Type := {
  weight : float;
  isStable : bool;
  unit : string
}.

(** [parseScaleData]: [null] is [None]. *)
Definition parseScaleData (data : DataView) : completion (option Measurement) :=
  if byteLength data <? 3 then Normal None
  else
    (let! flags := getUint8 data 0 in
     let isLbs := negb (Z.land flags 0x01 =? 0) in
     let! rawWeight := getUint16 data 1 true in
     let weight := (of_Z rawWeight * 0.005)%float in
     let weight := if isLbs then (of_Z rawWeight * 0.01)%float else weight in
     Normal (Some {| weight := (Math_round (weight * 100) / 100)%float;
                     isStable := true;
                     unit := if isLbs then "lbs" else "kg" |}))%completion.

(** ** Negotiation and subscription *)

(** The listener [subscribeToWeight] registers: decode the value of the
    event, and hand a decoded measurement to [onData]; a rejected frame is
    dropped. *)
Definition onValueChanged {A} (onData : Measurement -> A) : Listener A :=
  fun value =>
    (let! result := parseScaleData value in
     Normal (match result with
             | Some r => Some (onData r)
             | None => None
             end))%completion.

(** The closure returned by [subscribeToWeight], over the characteristic and
    the server it captures. *)
Definition teardown {A} (characteristic : Characteristic) (server : Server)
  : Teardown A :=
  (call stopNotifications characteristic;
   disconnect server)%gatt.

(** [subscribeToWeight]: the value returned is the teardown closure. *)
Definition subscribeToWeight {A} (device : Peripheral) (onData : Measurement -> A)
  : M A (Teardown A) :=
  (await server <- connect device;
   await resolved <-
     try_catch
       (await service <- getPrimaryService server WEIGHT_SCALE_SERVICE_UUID;
        ret (service, WEIGHT_MEASUREMENT_CHAR_UUID))
       (fun e =>
        await service <- getPrimaryService server BODY_COMPOSITION_SERVICE_UUID;
        ret (service, BODY_COMP_MEASUREMENT_CHAR_UUID));
   let service := fst resolved in
   let charUUID := snd resolved in
   await characteristic <- getCharacteristic service charUUID;
   call startNotifications characteristic;
   call addEventListener characteristic (onValueChanged onData);
   ret (teardown characteristic server))%gatt.

(** A peripheral described by the services it exposes: a request for a
    service or characteristic outside the table is rejected with
    [NotFoundError]. *)
Definition peripheral_of_table (table : list (Z * list Z)) : Peripheral :=
  {| connect_answer := Normal tt;
     service_answer := fun uuid =>
       if existsb (fun e => fst e =? uuid) table then Normal tt
       else Throw (DOMException "NotFoundError");
     characteristic_answer := fun service uuid =>
       if existsb (fun e => (fst e =? service) && existsb (Z.eqb uuid) (snd e)) table
       then Normal tt
       else Throw (DOMException "NotFoundError");
     notify_answer := fun _ _ => Normal tt |}.

Definition mi_scale_2 : Peripheral :=
  peripheral_of_table [(0x181d, [0x2a9d])].
Definition body_composition_scale : Peripheral :=
  peripheral_of_table [(0x181b, [0x2a9c])].
Definition heart_rate_monitor : Peripheral :=
  peripheral_of_table [(0x180d, [0x2a37])].

(** ** The metric helpers *)

Definition calculateBMI (weight height : Value) : float :=
  if negb (ToBoolean weight) || negb (ToBoolean height) then 0%float
  else
    let heightInMeters := (ToNumber height / 100)%float in
    let bmi := (ToNumber weight / (heightInMeters * heightInMeters))%float in
    (Math_round (bmi * 10) / 10)%float.

Record Category : Type := {
  label : string;
  color : string;
  status : string
}.

Definition Podvaha : Category :=
  {| label := "Podváha"; color := "#60a5fa"; status := "blue" |}.
Definition Normalna : Category :=
  {| label := "Normálna"; color := "#4ade80"; status := "green" |}.
Definition Nadvaha : Category :=
  {| label := "Nadváha"; color := "#fb923c"; status := "orange" |}.
Definition Obezita : Category :=
  {| label := "Obezita"; color := "#f87171"; status := "red" |}.

(** [bmi < c] converts [bmi] to a number first. *)
Definition getBMICategory (bmi : Value) : Category :=
  if (ToNumber bmi <? 18.5)%float then Podvaha
  else if (ToNumber bmi <? 25)%float then Normalna
  else if (ToNumber bmi <? 30)%float then Nadvaha
  else Obezita.

(** ** What the specification says of the decoded weight

    Definitions written from the words of the specification, to be compared
    with the decoder: the multiplier selected by the units flag, and rounding
    to a whole number of hundredths with ties away from zero. *)

Module Spec.

Definition multiplier (unitsFlag : bool) : Q :=
  if unitsFlag then 1 # 100 else 5 # 1000.

Definition round_half_away_from_zero (q : Q) : Z :=
  if Qnum q <? 0 then - Qfloor (- q + (1 # 2)) else Qfloor (q + (1 # 2)).

(** The product of the raw value and the multiplier, in hundredths. *)
Definition product_hundredths (unitsFlag : bool) (raw : Z) : Q :=
  inject_Z raw * multiplier unitsFlag * 100.

Definition weight_hundredths (unitsFlag : bool) (raw : Z) : Z :=
  round_half_away_from_zero (product_hundredths unitsFlag raw).

(** The index in the spec's words: the weight in kilograms over the square
    of the height in metres. *)
Definition bmi (weightKg heightCm : Q) : Q :=
  (weightKg / ((heightCm / 100) * (heightCm / 100)))%Q.

(** That quotient rounded to one decimal place, in tenths. *)
Definition bmi_tenths (weightKg heightCm : Q) : Z :=
  round_half_away_from_zero (bmi weightKg heightCm * 10).

End Spec.

(** The number denoted by a decimal with two places, [n] hundredths. *)
Definition hundredths (n : Z) : float := (of_Z n / 100)%float.

(** ** Auxiliary definitions for the statements and their proofs *)

(** [f] holds of the [n] integers from [z] on. *)
Fixpoint all_from (n : nat) (z : Z) (f : Z -> bool) : bool :=
  match n with
  | O => true
  | S k => f z && all_from k (z + 1) f
  end.

(** A byte as the unsigned integer [getUint8] reads. *)
Definition byte_value (b : byte) : Z := Z.of_N (Byte.to_N b).

(** What [parseScaleData] computes from the units flag and the raw value. *)
Definition reading (isLbs : bool) (rawWeight : Z) : Measurement :=
  {| weight := (Math_round ((if isLbs then of_Z rawWeight * 0.01
                             else of_Z rawWeight * 0.005) * 100) / 100)%float;
     isStable := true;
     unit := if isLbs then "lbs" else "kg" |}.

(** The facts checked of the decoder at one raw value: in pounds the weight
    is [raw] hundredths; in kilograms it is [raw / 2] hundredths, rounded down
    or, for an odd raw value only, up; the sign of both. *)
Definition reading_checked (raw : Z) : bool :=
  let kg := weight (reading false raw) in
  let lbs := weight (reading true raw) in
  Leibniz.eqb lbs (hundredths raw)
  && (Leibniz.eqb kg (hundredths (raw / 2))
      || negb (Z.even raw) && Leibniz.eqb kg (hundredths ((raw + 1) / 2)))
  && (0 <=? kg)%float && (0 <=? lbs)%float
  && Bool.eqb (0 <? kg)%float (negb (raw =? 0))
  && Bool.eqb (0 <? lbs)%float (negb (raw =? 0)).

(** [Math_round] and its reference give the same number at [x]. *)
Definition round_agrees (x : float) : bool :=
  Leibniz.eqb (Math_round x) (Math_round_exact x).

(** They do on the two products the decoder can round for a raw value. *)
Definition decoder_rounding_agrees (raw : Z) : bool :=
  round_agrees (of_Z raw * 0.005 * 100)%float
  && round_agrees (of_Z raw * 0.01 * 100)%float.

(** [f] holds of the [n] machine integers from [W] on. *)
Fixpoint all_ints (n : nat) (W : int) (f : int -> bool) : bool :=
  match n with
  | O => true
  | S k => f W && all_ints k (W + 1)%uint63 f
  end.

(** What is checked of the index at a weight of [W] hundredths and one
    height of [h] centimetres, given the square [hm2] of the height in metres
    as [calculateBMI] computes it, [hh = h^2] and [d = 2 h^2]: the weight is
    truthy, and the number [calculateBMI] returns is [k / 10] for the integer
    [k = floor (1000 W / h^2 + 1/2)], the tenths nearest to the quotient
    [W/100 / (h/100)^2], or, when the quotient lies halfway between two
    tenths, for [k - 1]. *)
Definition nearest_tenth_checked (hm2 : float) (hh d : int) (W : int) : bool :=
  let w := (of_uint63 W / 100)%float in
  let r := (Math_round (w / hm2 * 10) / 10)%float in
  let n := (2000 * W + hh)%uint63 in
  let k := (n / d)%uint63 in
  ToBoolean (Num w)
  && (Leibniz.eqb r (of_uint63 k / 10)
      || ((n mod d =? 0)%uint63 && Leibniz.eqb r (of_uint63 (k - 1) / 10))).

(** The same at the first [weights] weights from 0.01 on, for a truthy
    height. *)
Definition all_weights_checked (weights : nat) (h : int) : bool :=
  let height := of_uint63 h in
  let heightInMeters := (height / 100)%float in
  let hh := (h * h)%uint63 in
  ToBoolean (Num height)
  && all_ints weights 1%uint63
       (nearest_tenth_checked (heightInMeters * heightInMeters) hh (2 * hh)%uint63).

(** The key of a number in the order of doubles. *)
Definition number_key (x : spec_float) : option (Z * Z * Z) :=
  match x with
  | S754_nan => None
  | S754_infinity s => Some (if s then -2 else 2, 0, 0)
  | S754_zero _ => Some (0, 0, 0)
  | S754_finite s m e => Some (if s then (-1, - e, Zneg m) else (1, e, Zpos m))
  end.

(** Lexicographic comparison of keys, and the order it decides. *)
Definition key_compare (a b : Z * Z * Z) : comparison :=
  match fst (fst a) ?= fst (fst b) with
  | Eq => match snd (fst a) ?= snd (fst b) with
          | Eq => snd a ?= snd b
          | c => c
          end
  | c => c
  end.

Definition key_lt (a b : Z * Z * Z) : Prop :=
  fst (fst a) < fst (fst b)
  \/ fst (fst a) = fst (fst b)
     /\ (snd (fst a) < snd (fst b)
         \/ snd (fst a) = snd (fst b) /\ snd a < snd b).

(** The two supported pairs of service and characteristic. *)
Definition weight_scale_pair : Z * Z :=
  (WEIGHT_SCALE_SERVICE_UUID, WEIGHT_MEASUREMENT_CHAR_UUID).

Definition body_composition_pair : Z * Z :=
  (BODY_COMPOSITION_SERVICE_UUID, BODY_COMP_MEASUREMENT_CHAR_UUID).

(** The characteristic a request of the platform is about, if any. *)
Definition characteristic_of (c : Call) : option (Z * Z) :=
  match c with
  | GetCharacteristic sv ch | StartNotifications sv ch
  | AddEventListener sv ch | StopNotifications sv ch => Some (sv, ch)
  | Connect | GetPrimaryService _ | Disconnect => None
  end.

(** The characteristic of the fallback pair, as the platform hands it back. *)
Definition body_composition_characteristic (device : Peripheral) : Characteristic :=
  {| characteristic_service :=
       {| service_server := {| server_device := device |};
          service_uuid := BODY_COMPOSITION_SERVICE_UUID |};
     characteristic_uuid := BODY_COMP_MEASUREMENT_CHAR_UUID |}.

(** The characteristic of the primary pair. *)
Definition weight_scale_characteristic (device : Peripheral) : Characteristic :=
  {| characteristic_service :=
       {| service_server := {| server_device := device |};
          service_uuid := WEIGHT_SCALE_SERVICE_UUID |};
     characteristic_uuid := WEIGHT_MEASUREMENT_CHAR_UUID |}.

(** ** Further definitions: peripherals and orders used below *)

(** A peripheral out of range: the connection attempt is rejected. *)
Definition unreachable_scale : Peripheral :=
  {| connect_answer := Throw (DOMException "NetworkError");
     service_answer := fun _ => Normal tt;
     characteristic_answer := fun _ _ => Normal tt;
     notify_answer := fun _ _ => Normal tt |}.

(** A peripheral whose Weight Scale service lacks the Weight Measurement
    characteristic, and which also exposes the complete fallback pair. *)
Definition scale_without_weight_measurement : Peripheral :=
  peripheral_of_table [(0x181d, []); (0x181b, [0x2a9c])].

(** A peripheral with the primary pair that refuses notifications. *)
Definition scale_refusing_notifications : Peripheral :=
  {| connect_answer := Normal tt;
     service_answer := fun _ => Normal tt;
     characteristic_answer := fun _ _ => Normal tt;
     notify_answer := fun _ _ => Throw (DOMException "NotSupportedError") |}.

(** The place of a category on the scale from underweight to obese, read
    from its [status]. *)
Definition category_rank (c : Category) : Z :=
  if String.eqb (status c) "blue" then 0
  else if String.eqb (status c) "green" then 1
  else if String.eqb (status c) "orange" then 2
  else 3.

(** Consecutive numbers of hundredths denote increasing doubles. *)
Definition hundredths_increase (n : Z) : bool :=
  (hundredths n <? hundredths (n + 1))%float.

(** ** The record store (src/db.js)

    The store is Dexie over IndexedDB, outside the repository; the model
    keeps the two tables with their auto-incremented primary key [++id], as
    [db.version(1).stores] declares them.  A table is the list of its records
    in the order they were added, with the next number of its key generator:
    a record added without key gets that number, a record added with a key
    keeps it and moves the generator past it, and a key is never handed out
    twice.  Dates are milliseconds since the epoch. *)

Module Db.

(** A record of [measurements]; [userId] is [user.id], absent on a profile
    that was never stored. *)
Record MeasurementRecord : Type := {
  id : Z;
  userId : option Z;
  weight : float;
  bmi : float;
  createdAt : Z
}.

(** The object handed to [addMeasurement]: the three fields the application
    sets, and the two the store or the function decide, if the caller sets
    them all the same. *)
Record NewMeasurement : Type := {
  new_id : option Z;
  new_userId : option Z;
  new_weight : float;
  new_bmi : float;
  new_createdAt : option Z
}.

(** A record of [users]; [user_id] is absent until the store has set it. *)
Record User : Type := {
  user_id : option Z;
  name : string;
  height : Value;
  targetWeight : Value
}.

Record Store : Type := {
  users : list User;
  nextUserKey : Z;
  measurements : list MeasurementRecord;
  nextMeasurementKey : Z
}.

(** The database as [new Dexie('SmartScaleDB')] opens it the first time. *)
Definition empty : Store :=
  {| users := []; nextUserKey := 1; measurements := []; nextMeasurementKey := 1 |}.

(** The order of [orderBy('createdAt').reverse()]: the index on [createdAt]
    lists records by date, then by primary key, and is read backwards. *)
Definition newer (a b : MeasurementRecord) : bool :=
  (createdAt b <? createdAt a)
  || ((createdAt b =? createdAt a) && (id b <=? id a)).

Fixpoint insert (x : MeasurementRecord) (l : list MeasurementRecord)
  : list MeasurementRecord :=
  match l with
  | [] => [x]
  | y :: l' => if newer x y then x :: l else y :: insert x l'
  end.

Definition newest_first (l : list MeasurementRecord) : list MeasurementRecord :=
  fold_right insert [] l.

(** [Table.get]-style lookup of the smallest key: [orderBy('id').first()]. *)
Fixpoint first_by_id (l : list User) : option User :=
  match l with
  | [] => None
  | u :: l' =>
      match first_by_id l' with
      | None => Some u
      | Some v =>
          match user_id u, user_id v with
          | Some a, Some b => if a <=? b then Some u else Some v
          | _, _ => Some v
          end
      end
  end.

Definition has_key (k : Z) (u : User) : bool :=
  match user_id u with
  | Some a => a =? k
  | None => false
  end.

(** [getUser] *)
Definition getUser (db : Store) : option User := first_by_id (users db).

(** [saveUser]: [put] replaces the record with the same key, or adds the
    record, under a new key when it has none; it returns the key. *)
Definition saveUser (user : User) (db : Store) : completion Z * Store :=
  let key := match user_id user with
             | Some k => k
             | None => nextUserKey db
             end in
  let stored := {| user_id := Some key; name := name user;
                   height := height user; targetWeight := targetWeight user |} in
  (Normal key,
   {| users := filter (fun u => negb (has_key key u)) (users db) ++ [stored];
      nextUserKey := Z.max (nextUserKey db) (key + 1);
      measurements := measurements db;
      nextMeasurementKey := nextMeasurementKey db |}).

(** [addMeasurement]: [add] stores [{...measurement, createdAt: new Date()}],
    and rejects with [ConstraintError] when the key is taken; [now] is the
    date of the call. *)
Definition addMeasurement (now : Z) (measurement : NewMeasurement) (db : Store)
  : completion Z * Store :=
  let key := match new_id measurement with
             | Some k => k
             | None => nextMeasurementKey db
             end in
  if existsb (fun r => id r =? key) (measurements db)
  then (Throw (DOMException "ConstraintError"), db)
  else
    (Normal key,
     {| users := users db;
        nextUserKey := nextUserKey db;
        measurements :=
          measurements db
          ++ [{| id := key; userId := new_userId measurement;
                 weight := new_weight measurement; bmi := new_bmi measurement;
                 createdAt := now |}];
        nextMeasurementKey := Z.max (nextMeasurementKey db) (key + 1) |}).

(** [getMeasurements]: the [limit] newest records, newest first; 100 of them
    when no limit is given. *)
Definition getMeasurements (limit : option nat) (db : Store)
  : list MeasurementRecord :=
  let limit := match limit with
               | Some n => n
               | None => 100%nat
               end in
  firstn limit (newest_first (measurements db)).

(** [deleteMeasurement]: [delete] removes the record with the key, if any. *)
Definition deleteMeasurement (key : Z) (db : Store) : Store :=
  {| users := users db;
     nextUserKey := nextUserKey db;
     measurements := filter (fun r => negb (id r =? key)) (measurements db);
     nextMeasurementKey := nextMeasurementKey db |}.

(** Keys of stored measurements are distinct and below the generator. *)
Definition well_keyed (db : Store) : Prop :=
  NoDup (map id (measurements db))
  /\ forall r, In r (measurements db) -> id r < nextMeasurementKey db.

(** The same for the profiles, each of which carries its key. *)
Definition users_well_keyed (db : Store) : Prop :=
  forall u, In u (users db) -> exists k, user_id u = Some k /\ k < nextUserKey db.

End Db.

(** ** Device selection (src/bluetooth.js) and the application (App)

    What the application does around the functions above: [requestScale],
    [startWeighing] and the callback it hands to [subscribeToWeight], and the
    start-up effect.  React state is a record of the current values; a state
    setter writes its field. *)

Module App.

(** What a [catch] can receive: an [Error] made by the code, or an error of
    the platform. *)
Inductive Thrown : Type :=
| PlainError (message : string)
| Platform (e : Error).

Inductive outcome (A : Type) : Type :=
| Returned (a : A)
| Threw (t : Thrown).
Arguments Returned {A} a.
Arguments Threw {A} t.

(** The argument of [navigator.bluetooth.requestDevice]. *)
Record RequestDeviceOptions : Type := {
  filters : list (list Z);
  optionalServices : list string
}.

(** The browser: [navigator.bluetooth], absent without Web Bluetooth, with
    the answer of the device chooser to a request; and the outcome of the
    test of the user agent for an iOS device. *)
Record Browser : Type := {
  bluetooth : option (RequestDeviceOptions -> completion Peripheral);
  isIOS : bool
}.

(** [requestScale], with the errors written to the console. *)
Definition requestScale (browser : Browser) (console : list Thrown)
  : outcome Peripheral * list Thrown :=
  let attempt :=
    match bluetooth browser with
    | None => Threw (PlainError "Web Bluetooth nie je podporovaný v tomto prehliadači.")
    | Some requestDevice =>
        match requestDevice
                {| filters := [[WEIGHT_SCALE_SERVICE_UUID];
                               [BODY_COMPOSITION_SERVICE_UUID]];
                   optionalServices := ["generic_access"%string] |} with
        | Normal device => Returned device
        | Throw e => Threw (Platform e)
        end
    end in
  match attempt with
  | Returned device => (Returned device, console)
  | Threw error => (Threw error, console ++ [error])
  end.

(** The state of the component, the link, the database, and what was
    written to the console and shown in alerts.  [cleanup] is the constant of
    [startWeighing], once assigned. *)
Record World : Type := {
  user : option Db.User;
  measurements : list Db.MeasurementRecord;
  latestWeight : Value;
  scanning : bool;
  view : string;
  loading : bool;
  cleanup : option (Teardown Measurement);
  link : State Measurement;
  db : Db.Store;
  console : list Thrown;
  alerts : list string
}.

Definition setScanning (b : bool) (w : World) : World :=
  {| user := user w; measurements := measurements w; latestWeight := latestWeight w;
     scanning := b; view := view w; loading := loading w; cleanup := cleanup w;
     link := link w; db := db w; console := console w; alerts := alerts w |}.

Definition setLatestWeight (v : Value) (w : World) : World :=
  {| user := user w; measurements := measurements w; latestWeight := v;
     scanning := scanning w; view := view w; loading := loading w;
     cleanup := cleanup w; link := link w; db := db w; console := console w;
     alerts := alerts w |}.

Definition setMeasurements (l : list Db.MeasurementRecord) (w : World) : World :=
  {| user := user w; measurements := l; latestWeight := latestWeight w;
     scanning := scanning w; view := view w; loading := loading w;
     cleanup := cleanup w; link := link w; db := db w; console := console w;
     alerts := alerts w |}.




Definition with_cleanup (c : Teardown Measurement) (w : World) : World :=
  {| user := user w; measurements := measurements w; latestWeight := latestWeight w;
     scanning := scanning w; view := view w; loading := loading w;
     cleanup := Some c; link := link w; db := db w; console := console w;
     alerts := alerts w |}.

Definition with_link (l : State Measurement) (w : World) : World :=
  {| user := user w; measurements := measurements w; latestWeight := latestWeight w;
     scanning := scanning w; view := view w; loading := loading w;
     cleanup := cleanup w; link := l; db := db w; console := console w;
     alerts := alerts w |}.

Definition with_db (d : Db.Store) (w : World) : World :=
  {| user := user w; measurements := measurements w; latestWeight := latestWeight w;
     scanning := scanning w; view := view w; loading := loading w;
     cleanup := cleanup w; link := link w; db := d; console := console w;
     alerts := alerts w |}.

Definition with_console (c : list Thrown) (w : World) : World :=
  {| user := user w; measurements := measurements w; latestWeight := latestWeight w;
     scanning := scanning w; view := view w; loading := loading w;
     cleanup := cleanup w; link := link w; db := db w; console := c;
     alerts := alerts w |}.

Definition alert (message : string) (w : World) : World :=
  {| user := user w; measurements := measurements w; latestWeight := latestWeight w;
     scanning := scanning w; view := view w; loading := loading w;
     cleanup := cleanup w; link := link w; db := db w; console := console w;
     alerts := alerts w ++ [message] |}.

Definition ios_message : string :=
  "⚠️ Na iPhonoch (iOS) Web Bluetooth nefunguje v Chrome ani Safari.

Prosím, použi aplikáciu 'Bluefy' (z App Store) alebo použi Android/PC s Chrome.".

Definition unsupported_message : string :=
  "Váš prehliadač nepodporuje Bluetooth. Použite prosím Chrome, Edge alebo Operu.".

Definition connect_message : string :=
  "Nepodarilo sa pripojiť k váhe. Uistite sa, že je zapnutý Bluetooth a váha je v dosahu.".

(** The [catch] block of [startWeighing]. *)
Definition startWeighing_catch (browser : Browser) (err : Thrown) (w : World) : World :=
  let w := with_console (console w ++ [err]) w in
  let w := setScanning false w in
  if isIOS browser then alert ios_message w
  else
    match bluetooth browser with
    | None => alert unsupported_message w
    | Some _ => alert connect_message w
    end.

(** [startWeighing], up to the point where it waits for notifications.  The
    listener hands each decoded measurement on to the callback [onData]
    below. *)
Definition startWeighing (browser : Browser) (w : World) : World :=
  let w := setScanning true w in
  match requestScale browser (console w) with
  | (Returned device, c) =>
      let w := with_console c w in
      match subscribeToWeight device (fun data => data) (link w) with
      | (Normal teardown, l) => with_cleanup teardown (with_link l w)
      | (Throw e, l) => startWeighing_catch browser (Platform e) (with_link l w)
      end
  | (Threw error, c) => startWeighing_catch browser error (with_console c w)
  end.

(** The callback of [startWeighing], for one measurement and run to its end
    with no other event in between; [now] is the date [addMeasurement] reads.
    An exception ([user] still [null], a rejected [addMeasurement], a throwing
    or unassigned [cleanup]) ends the callback where it stands. *)
Definition onData (now : Z) (data : Measurement) (w : World) : World :=
  let w := setLatestWeight (Num (weight data)) w in
  if isStable data then
    match user w with
    | Some profile =>
        let bmi := calculateBMI (Num (weight data)) (Db.height profile) in
        match Db.addMeasurement now
                {| Db.new_id := None; Db.new_userId := Db.user_id profile;
                   Db.new_weight := weight data; Db.new_bmi := bmi;
                   Db.new_createdAt := None |} (db w) with
        | (Normal _, d) =>
            let w := with_db d w in
            let updatedData := Db.getMeasurements (Some 10%nat) (db w) in
            let w := setMeasurements updatedData w in
            match cleanup w with
            | Some teardown =>
                match teardown (link w) with
                | (Normal _, l) => setScanning false (with_link l w)
                | (Throw _, l) => with_link l w
                end
            | None => w
            end
        | (Throw _, d) => with_db d w
        end
    | None => w
    end
  else w.

(** A notification of the peripheral: every listener it reaches hands its
    measurement, if any, to the callback. *)
Definition onNotification (now : Z) (characteristic : Z * Z) (value : DataView)
  (w : World) : World :=
  fold_left
    (fun w handed =>
       match handed with
       | Normal (Some data) => onData now data w
       | _ => w
       end)
    (notify characteristic value (link w)) w.


(** The component before its first effect, over a database and a link. *)
Definition mounted (d : Db.Store) : World :=
  {| user := None; measurements := []; latestWeight := Null; scanning := false;
     view := "dashboard"; loading := true; cleanup := None; link := initial;
     db := d; console := []; alerts := [] |}.

End App.

(** ** Further definitions: the store and the application in the statements *)

(** The order in which [getMeasurements] lists two records. *)
Definition listed_before (a b : Db.MeasurementRecord) : Prop :=
  Db.createdAt b < Db.createdAt a
  \/ (Db.createdAt b = Db.createdAt a /\ Db.id b <= Db.id a).

Definition limit_of (limit : option nat) : nat :=
  match limit with
  | Some n => n
  | None => 100%nat
  end.

(** A store with two measurements, the second one the later. *)
Definition two_measurements : Db.Store :=
  snd (Db.addMeasurement 2000
         {| Db.new_id := None; Db.new_userId := Some 1;
            Db.new_weight := 70.5; Db.new_bmi := 23; Db.new_createdAt := None |}
         (snd (Db.addMeasurement 1000
                 {| Db.new_id := None; Db.new_userId := Some 1;
                    Db.new_weight := 71; Db.new_bmi := 23.2;
                    Db.new_createdAt := None |}
                 Db.empty))).

(** What the application hands to [addMeasurement]. *)
Definition a_measurement : Db.NewMeasurement :=
  {| Db.new_id := None; Db.new_userId := Some 1;
     Db.new_weight := 70; Db.new_bmi := 22.9; Db.new_createdAt := Some 5 |}.

(** The profile as the store keeps it, under key [k]. *)
Definition with_key (k : Z) (user : Db.User) : Db.User :=
  {| Db.user_id := Some k; Db.name := Db.name user;
     Db.height := Db.height user; Db.targetWeight := Db.targetWeight user |}.

Definition a_profile : Db.User :=
  {| Db.user_id := None; Db.name := "Eva"; Db.height := Num 168;
     Db.targetWeight := Null |}.

(** What [requestScale] asks the device chooser for. *)
Definition requested_options : App.RequestDeviceOptions :=
  {| App.filters := [[WEIGHT_SCALE_SERVICE_UUID]; [BODY_COMPOSITION_SERVICE_UUID]];
     App.optionalServices := ["generic_access"%string] |}.

(** The alert of the [catch] block of [startWeighing]. *)
Definition failure_message (browser : App.Browser) : string :=
  if App.isIOS browser then App.ios_message
  else match App.bluetooth browser with
       | None => App.unsupported_message
       | Some _ => App.connect_message
       end.

(** [startWeighing] reaches the point where it waits for notifications. *)
Definition subscribes (browser : App.Browser) (w : App.World) : Prop :=
  exists requestDevice device teardown l,
    App.bluetooth browser = Some requestDevice
    /\ requestDevice requested_options = Normal device
    /\ subscribeToWeight device (fun data => data) (App.link w)
       = (Normal teardown, l).

(** A browser whose chooser hands back the given device. *)
Definition browser_choosing (device : Peripheral) : App.Browser :=
  {| App.bluetooth := Some (fun _ => Normal device); App.isIOS := false |}.

(** A world in which a weighing is under way on the primary pair. *)
Definition weighing (d : Db.Store) (profile : Db.User) : App.World :=
  {| App.user := Some profile; App.measurements := []; App.latestWeight := Null;
     App.scanning := true; App.view := "dashboard"; App.loading := false;
     App.cleanup := Some (teardown (weight_scale_characteristic mi_scale_2)
                            {| server_device := mi_scale_2 |});
     App.link := snd (subscribeToWeight mi_scale_2 (fun data => data) initial);
     App.db := d; App.console := []; App.alerts := [] |}.

(** * Properties *)

(** ** Exhaustive checks over an interval of integers *)

Lemma all_from_spec (f : Z -> bool) :
  forall n z, all_from n z f = true ->
  forall k, z <= k < z + Z.of_nat n -> f k = true.
Proof.
  induction n as [|n IH]; intros z H k Hk.
  - simpl in Hk. lia.
  - simpl in H. apply andb_true_iff in H as [Hz Hrest].
    destruct (Z.eq_dec k z) as [->|Hne]; [exact Hz|].
    apply (IH (z + 1) Hrest). lia.
Qed.

(** ** The decoder on a frame of three bytes or more *)

Lemma byte_value_range (b : byte) : 0 <= byte_value b < 256.
Proof.
  unfold byte_value. pose proof (Byte.to_N_bounded b). lia.
Qed.

Lemma byteLength_cons3 (a b c : byte) (rest : list byte) :
  (byteLength (a :: b :: c :: rest) <? 3) = false.
Proof.
  apply Z.ltb_ge. unfold byteLength. simpl List.length. lia.
Qed.

Lemma getUint16_le_cons3 (a b c : byte) (rest : list byte) :
  getUint16 (a :: b :: c :: rest) 1 true
  = Normal (Z.lor (byte_value b) (Z.shiftl (byte_value c) 8)).
Proof.
  unfold getUint16.
  replace (byteLength (a :: b :: c :: rest) <? 1 + 2) with false
    by (symmetry; apply byteLength_cons3).
  reflexivity.
Qed.

Lemma units_bit (flags : Z) :
  negb (Z.land flags 0x01 =? 0) = Z.testbit flags 0.
Proof.
  rewrite Z.bit0_odd.
  change 1 with (Z.ones 1). rewrite Z.land_ones by lia.
  change (2 ^ 1) with 2. rewrite Zmod_odd.
  destruct (Z.odd flags); reflexivity.
Qed.

Lemma raw_range (lo hi : Z) :
  0 <= lo < 256 -> 0 <= hi < 256 ->
  0 <= Z.lor lo (Z.shiftl hi 8) < 65536.
Proof.
  intros Hlo Hhi.
  assert (Hs : 0 <= Z.shiftl hi 8 < 65536).
  { rewrite Z.shiftl_mul_pow2 by lia. change (2 ^ 8) with 256. lia. }
  split; [apply Z.lor_nonneg; lia|].
  destruct (Z.eq_dec (Z.lor lo (Z.shiftl hi 8)) 0) as [->|Hnz]; [lia|].
  assert (Hpos : 0 < Z.lor lo (Z.shiftl hi 8)).
  { assert (0 <= Z.lor lo (Z.shiftl hi 8)) by (apply Z.lor_nonneg; lia). lia. }
  change 65536 with (2 ^ 16).
  apply Z.log2_lt_pow2; [exact Hpos|].
  rewrite Z.log2_lor by lia.
  apply Z.max_lub_lt.
  - destruct (Z.eq_dec lo 0) as [->|]; [reflexivity|].
    apply Z.log2_lt_pow2; [lia|]. change (2 ^ 16) with 65536. lia.
  - destruct (Z.eq_dec (Z.shiftl hi 8) 0) as [->|]; [reflexivity|].
    apply Z.log2_lt_pow2; [lia|]. change (2 ^ 16) with 65536. lia.
Qed.

Lemma parseScaleData_cons3 (flags lo hi : byte) (rest : list byte) :
  parseScaleData (flags :: lo :: hi :: rest)
  = Normal (Some (reading (Z.testbit (byte_value flags) 0)
                          (Z.lor (byte_value lo) (Z.shiftl (byte_value hi) 8)))).
Proof.
  unfold parseScaleData.
  rewrite byteLength_cons3, getUint16_le_cons3.
  cbn [getUint8 Z.ltb Z.compare Z.to_nat nth_error bindC].
  fold (byte_value flags). rewrite units_bit.
  unfold reading. destruct (Z.testbit (byte_value flags) 0); reflexivity.
Qed.

Lemma parseScaleData_short (data : DataView) :
  byteLength data < 3 -> parseScaleData data = Normal None.
Proof.
  intros H. unfold parseScaleData.
  apply Z.ltb_lt in H. rewrite H. reflexivity.
Qed.

Lemma parseScaleData_accepts (data : DataView) (m : Measurement) :
  parseScaleData data = Normal (Some m) ->
  exists flags lo hi rest, data = flags :: lo :: hi :: rest.
Proof.
  destruct data as [|a [|b [|c rest]]]; try (cbv; discriminate).
  intros _. now exists a, b, c, rest.
Qed.

(** ** [Math_round] against its reference

    The reference rounds [floor (x + 1/2)] as stated.  The two definitions
    agree on ties and near-ties of either sign, on the zeros, at the ends of
    the range, on the eighths between -8 and 8, and on every product the
    decoder can round. *)

Lemma round_half_up_floor (sm e : Z) :
  e < 0 -> round_half_up sm e = (2 * sm + 2 ^ (- e)) / 2 ^ (1 - e).
Proof.
  intros H. unfold round_half_up.
  rewrite Z.shiftr_div_pow2, Z.shiftl_mul_pow2 by lia.
  set (k := - e - 1). assert (Hk : 0 <= k) by (unfold k; lia).
  replace (- e) with (k + 1) by (unfold k; lia).
  replace (1 - e) with (k + 2) by (unfold k; lia).
  rewrite (Z.pow_add_r 2 k 1), (Z.pow_add_r 2 k 2) by lia.
  change (2 ^ 1) with 2. change (2 ^ 2) with 4.
  assert (Hp : 0 < 2 ^ k) by (apply Z.pow_pos_nonneg; lia).
  replace (2 * sm + 2 ^ k * 2) with (2 * (sm + 1 * 2 ^ k)) by lia.
  replace (2 ^ k * 4) with (2 * (2 ^ k * 2)) by lia.
  rewrite Z.div_mul_cancel_l by lia. reflexivity.
Qed.

Lemma Math_round_agrees_on_samples :
  forallb round_agrees
    [0.5; -0.5; 0; -0; 1.5; -1.5; 2.5; -2.5; 0.3; -0.3; 0.7; -0.7;
     0.49999999999999994; -0.49999999999999994;
     0.50000000000000011; -0.50000000000000011;
     14.499999999999998; 100.49999999999999; 228.57142857142858;
     -228.57142857142858;
     4503599627370495.5; -4503599627370495.5; 4503599627370496;
     4503599627370497; 2251799813685247.5; 2251799813685247.75;
     -2251799813685247.5; -2251799813685247.75; -2251799813685247.25;
     1e300; -1e300; nan; infinity; neg_infinity]%float = true
  /\ all_from 128 (-64) (fun k => round_agrees (of_Z k / 8)%float) = true.
Proof. split; vm_compute; reflexivity. Qed.

Lemma decoder_rounding_checked :
  all_from (Z.to_nat 65536) 0 decoder_rounding_agrees = true.
Proof. vm_compute. reflexivity. Qed.

(** On every raw value the decoder rounds as the reference does. *)
Lemma reading_rounds_exactly (isLbs : bool) (raw : Z) :
  0 <= raw < 65536 ->
  weight (reading isLbs raw)
  = (Math_round_exact ((if isLbs then of_Z raw * 0.01 else of_Z raw * 0.005) * 100)
     / 100)%float.
Proof.
  intros H.
  assert (C : decoder_rounding_agrees raw = true).
  { apply (all_from_spec _ _ _ decoder_rounding_checked). rewrite Z2Nat.id; lia. }
  unfold decoder_rounding_agrees, round_agrees in C.
  apply andb_true_iff in C as [Ckg Clbs].
  apply Leibniz.eqb_spec in Ckg. apply Leibniz.eqb_spec in Clbs.
  unfold reading; cbn [weight]. destruct isLbs; congruence.
Qed.

(** ** The decoded weight, checked on every raw value

    The raw value is an unsigned 16-bit integer, so the decoder has 65536
    inputs per setting of the units flag; [reading_checked] evaluates it on
    each of them. *)

Lemma all_readings_checked :
  all_from (Z.to_nat 65536) 0 reading_checked = true.
Proof. vm_compute. reflexivity. Qed.

Lemma reading_checked_at (raw : Z) :
  0 <= raw < 65536 -> reading_checked raw = true.
Proof.
  intros H. apply (all_from_spec _ _ _ all_readings_checked).
  rewrite Z2Nat.id; lia.
Qed.

Lemma reading_lbs (raw : Z) :
  0 <= raw < 65536 -> weight (reading true raw) = hundredths raw.
Proof.
  intros H. pose proof (reading_checked_at raw H) as C.
  unfold reading_checked in C. cbv zeta in C.
  repeat (apply andb_true_iff in C as [C ?]).
  now apply Leibniz.eqb_spec.
Qed.

Lemma reading_kg (raw : Z) :
  0 <= raw < 65536 ->
  weight (reading false raw) = hundredths (raw / 2)
  \/ Z.even raw = false /\ weight (reading false raw) = hundredths ((raw + 1) / 2).
Proof.
  intros H. pose proof (reading_checked_at raw H) as C.
  unfold reading_checked in C. cbv zeta in C.
  repeat (apply andb_true_iff in C as [C ?]).
  match goal with K : (_ || _) = true |- _ => destruct (orb_prop _ _ K) as [L|L] end.
  - left. now apply Leibniz.eqb_spec.
  - right. apply andb_true_iff in L as [E L]. split.
    + now apply negb_true_iff.
    + now apply Leibniz.eqb_spec.
Qed.

Lemma reading_sign (isLbs : bool) (raw : Z) :
  0 <= raw < 65536 ->
  (0 <=? weight (reading isLbs raw))%float = true
  /\ (0 <? weight (reading isLbs raw))%float = negb (raw =? 0).
Proof.
  intros H. pose proof (reading_checked_at raw H) as C.
  unfold reading_checked in C. cbv zeta in C.
  repeat (apply andb_true_iff in C as [C ?]).
  repeat match goal with K : Bool.eqb _ _ = true |- _ => apply eqb_prop in K end.
  destruct isLbs; split; assumption.
Qed.

(** ** The rounding of the specification, on the products of the decoder *)

Lemma product_lbs (raw : Z) :
  Spec.product_hundredths true raw == inject_Z raw.
Proof.
  unfold Spec.product_hundredths, Spec.multiplier, Qeq. simpl. lia.
Qed.

Lemma product_kg (raw : Z) :
  Spec.product_hundredths false raw == raw # 2.
Proof.
  unfold Spec.product_hundredths, Spec.multiplier, Qeq. simpl. lia.
Qed.

Lemma weight_hundredths_lbs (raw : Z) :
  0 <= raw -> Spec.weight_hundredths true raw = raw.
Proof.
  intros H. unfold Spec.weight_hundredths, Spec.round_half_away_from_zero.
  unfold Spec.product_hundredths, Spec.multiplier.
  replace (Qnum (inject_Z raw * (1 # 100) * 100) <? 0) with false
    by (symmetry; apply Z.ltb_ge; simpl; lia).
  unfold Qfloor. simpl.
  replace (raw * 1 * 100 * 2 + 100) with (100 + raw * 200) by lia.
  rewrite Z.div_add by lia. reflexivity.
Qed.

Lemma weight_hundredths_kg (raw : Z) :
  0 <= raw -> Spec.weight_hundredths false raw = (raw + 1) / 2.
Proof.
  intros H. unfold Spec.weight_hundredths, Spec.round_half_away_from_zero.
  unfold Spec.product_hundredths, Spec.multiplier.
  replace (Qnum (inject_Z raw * (5 # 1000) * 100) <? 0) with false
    by (symmetry; apply Z.ltb_ge; simpl; lia).
  unfold Qfloor. simpl.
  replace (raw * 5 * 100 * 2 + 1000) with ((raw + 1) * 1000) by lia.
  change 2000 with (2 * 1000).
  rewrite Z.div_mul_cancel_r by lia. reflexivity.
Qed.

Lemma nearest_hundredth_kg (raw n : Z) :
  n = raw / 2 \/ n = (raw + 1) / 2 ->
  (Qabs (inject_Z n - Spec.product_hundredths false raw) <= 1 # 2)%Q.
Proof.
  intros Hn. rewrite product_kg.
  apply Qabs_Qle_condition.
  pose proof (Z.div_mod raw 2 ltac:(lia)) as D0.
  pose proof (Z.mod_pos_bound raw 2 ltac:(lia)) as B0.
  pose proof (Z.div_mod (raw + 1) 2 ltac:(lia)) as D1.
  pose proof (Z.mod_pos_bound (raw + 1) 2 ltac:(lia)) as B1.
  unfold Qle, Qminus, Qplus, Qopp, inject_Z; simpl.
  destruct Hn as [->| ->]; lia.
Qed.

Lemma nearest_hundredth_lbs (raw : Z) :
  (Qabs (inject_Z raw - Spec.product_hundredths true raw) <= 1 # 2)%Q.
Proof.
  rewrite product_lbs. apply Qabs_Qle_condition.
  unfold Qle, Qminus, Qplus, Qopp, inject_Z; simpl. lia.
Qed.

Lemma even_half_up (raw : Z) : Z.even raw = true -> (raw + 1) / 2 = raw / 2.
Proof.
  intros E. apply Z.even_spec in E as [k ->].
  Z.div_mod_to_equations. lia.
Qed.

(** ** The claims on the frame decoder *)

(** C8: a frame of fewer than 3 bytes is rejected: [parseScaleData] returns
    [null] for it, and does not raise. *)
Theorem C8_short_frame_rejected (data : DataView) :
  byteLength data < 3 -> parseScaleData data = Normal None.
Proof. apply parseScaleData_short. Qed.

Lemma C8_short_frame_rejected_witness :
  byteLength [x00; x58] < 3 /\ parseScaleData [x00; x58] = Normal None.
Proof.
  split; [reflexivity|].
  apply (C8_short_frame_rejected [x00; x58]). reflexivity.
Defined.

(** The decoder raises on no frame at all: the three bytes it reads are
    guarded by the length test. *)
Lemma parseScaleData_never_throws (data : DataView) :
  is_throw (parseScaleData data) = false.
Proof.
  destruct data as [|a [|b [|c rest]]]; try reflexivity.
  rewrite parseScaleData_cons3. reflexivity.
Qed.

(** The listener drops a rejected frame without calling [onData], and raises
    on no frame. *)
Lemma onValueChanged_drops_rejected {A} (onData : Measurement -> A) (value : DataView) :
  byteLength value < 3 -> onValueChanged onData value = Normal None.
Proof.
  intros H. unfold onValueChanged. now rewrite parseScaleData_short.
Qed.

(** C5: the units flag (byte 0, bit 0) selects the multiplier, 0.005 when it
    is 0 and 0.01 when it is 1, and names the unit; the frame 00 58 02 decodes
    to 3.00 kg and the frame 01 58 02 to 6.00 lbs. *)
Theorem C5_units_flag_multiplier :
  (forall (flags lo hi : byte) (rest : list byte),
      let raw := Z.lor (byte_value lo) (Z.shiftl (byte_value hi) 8) in
      parseScaleData (flags :: lo :: hi :: rest)
      = Normal (Some
          (if Z.testbit (byte_value flags) 0
           then {| weight := (Math_round (of_Z raw * 0.01 * 100) / 100)%float;
                   isStable := true; unit := "lbs" |}
           else {| weight := (Math_round (of_Z raw * 0.005 * 100) / 100)%float;
                   isStable := true; unit := "kg" |})))
  /\ getUint16 [x00; x58; x02] 1 true = Normal 600
  /\ parseScaleData [x00; x58; x02]
     = Normal (Some {| weight := 3%float; isStable := true; unit := "kg" |})
  /\ parseScaleData [x01; x58; x02]
     = Normal (Some {| weight := 6%float; isStable := true; unit := "lbs" |}).
Proof.
  split; [|repeat split; vm_compute; reflexivity].
  intros flags lo hi rest raw.
  rewrite parseScaleData_cons3. fold raw. unfold reading.
  destruct (Z.testbit (byte_value flags) 0); reflexivity.
Qed.

(** C3, as stated, fails: the frame 00 00 00 is decoded, not rejected, and
    its weight is 0, which is not greater than 0. *)
Lemma C3_counterexample :
  exists m : Measurement,
    parseScaleData [x00; x00; x00] = Normal (Some m)
    /\ (0 <? weight m)%float = false.
Proof.
  exists (reading false 0). split; vm_compute; reflexivity.
Qed.

(** C3, amended: the weight of a decoded frame is never negative, and it is
    greater than 0 exactly when the raw 16-bit value of the frame is not 0. *)
Theorem C3_weight_nonnegative (data : DataView) (m : Measurement) :
  parseScaleData data = Normal (Some m) ->
  (0 <=? weight m)%float = true
  /\ ((0 <? weight m)%float = true <-> getUint16 data 1 true <> Normal 0).
Proof.
  intros H.
  destruct (parseScaleData_accepts data m H) as (flags & lo & hi & rest & ->).
  rewrite parseScaleData_cons3 in H.
  assert (Hm : m = reading (Z.testbit (byte_value flags) 0)
                 (Z.lor (byte_value lo) (Z.shiftl (byte_value hi) 8)))
    by congruence.
  clear H. subst m.
  rewrite getUint16_le_cons3.
  pose proof (raw_range _ _ (byte_value_range lo) (byte_value_range hi)) as R.
  destruct (reading_sign (Z.testbit (byte_value flags) 0) _ R) as [Hle Hlt].
  split; [exact Hle|]. rewrite Hlt. split.
  - intros Hnz Heq. apply negb_true_iff, Z.eqb_neq in Hnz. apply Hnz. congruence.
  - intros Hne. apply negb_true_iff, Z.eqb_neq. intros Heq. apply Hne.
    f_equal. exact Heq.
Qed.

Lemma C3_weight_nonnegative_witness :
  parseScaleData [x00; x58; x02] = Normal (Some (reading false 600))
  /\ (0 <=? weight (reading false 600))%float = true
  /\ ((0 <? weight (reading false 600))%float = true
      <-> getUint16 [x00; x58; x02] 1 true <> Normal 0).
Proof.
  split; [vm_compute; reflexivity|].
  apply (C3_weight_nonnegative [x00; x58; x02] (reading false 600)).
  vm_compute. reflexivity.
Defined.

(** C6, as stated, fails.  The frame 00 1D 00 carries the raw value 29 in
    kilograms: the product 29 x 0.005 = 0.145 rounds half away from zero to
    0.15, and the decoder returns 0.14.  Reading "the product" as the double
    the decoder holds does not help: for the raw value 3 that double lies
    below 0.015 and rounds to 0.01, and the decoder returns 0.02. *)
Lemma C6_counterexample :
  (parseScaleData [x00; x1d; x00]
   = Normal (Some {| weight := hundredths 14; isStable := true; unit := "kg" |})
   /\ getUint16 [x00; x1d; x00] 1 true = Normal 29
   /\ Spec.weight_hundredths false 29 = 15
   /\ (hundredths 14 =? hundredths 15)%float = false)
  /\ (parseScaleData [x00; x03; x00]
      = Normal (Some {| weight := hundredths 2; isStable := true; unit := "kg" |})
      /\ Spec.round_half_away_from_zero (to_Q (of_Z 3 * 0.005)%float * 100) = 1
      /\ (hundredths 2 =? hundredths 1)%float = false).
Proof.
  repeat split; vm_compute; reflexivity.
Qed.

(** C6, amended: the weight of a decoded frame is a whole number of
    hundredths nearest to the product of the raw value and the multiplier (at
    most half a hundredth away); it is the product rounded half away from zero
    whenever the product is not a tie between two hundredths, that is for
    every frame in pounds and every frame in kilograms with an even raw
    value.  On a tie the error of the double product decides between the two
    neighbours. *)
Theorem C6_weight_nearest_hundredth (data : DataView) (m : Measurement) :
  parseScaleData data = Normal (Some m) ->
  exists flags raw n : Z,
    getUint8 data 0 = Normal flags
    /\ getUint16 data 1 true = Normal raw
    /\ weight m = hundredths n
    /\ (Qabs (inject_Z n - Spec.product_hundredths (Z.testbit flags 0) raw) <= 1 # 2)%Q
    /\ (Z.testbit flags 0 = true \/ Z.even raw = true ->
        n = Spec.weight_hundredths (Z.testbit flags 0) raw).
Proof.
  intros H.
  destruct (parseScaleData_accepts data m H) as (flags & lo & hi & rest & ->).
  rewrite parseScaleData_cons3 in H.
  assert (Hm : m = reading (Z.testbit (byte_value flags) 0)
                 (Z.lor (byte_value lo) (Z.shiftl (byte_value hi) 8)))
    by congruence.
  clear H. subst m.
  pose proof (raw_range _ _ (byte_value_range lo) (byte_value_range hi)) as R.
  set (raw := Z.lor (byte_value lo) (Z.shiftl (byte_value hi) 8)) in *.
  exists (byte_value flags), raw.
  destruct (Z.testbit (byte_value flags) 0) eqn:F.
  - exists raw. repeat split.
    + apply getUint16_le_cons3.
    + apply reading_lbs, R.
    + apply nearest_hundredth_lbs.
    + intros _. symmetry. apply weight_hundredths_lbs. lia.
  - destruct (reading_kg raw R) as [Hw | [Hodd Hw]].
    + exists (raw / 2). repeat split.
      * apply getUint16_le_cons3.
      * exact Hw.
      * apply nearest_hundredth_kg. now left.
      * intros [E|E]; [discriminate|].
        rewrite weight_hundredths_kg by lia. symmetry. now apply even_half_up.
    + exists ((raw + 1) / 2). repeat split.
      * apply getUint16_le_cons3.
      * exact Hw.
      * apply nearest_hundredth_kg. now right.
      * intros _. symmetry. apply weight_hundredths_kg. lia.
Qed.

Lemma C6_weight_nearest_hundredth_witness :
  parseScaleData [x00; x58; x02] = Normal (Some (reading false 600))
  /\ exists flags raw n : Z,
      getUint8 [x00; x58; x02] 0 = Normal flags
      /\ getUint16 [x00; x58; x02] 1 true = Normal raw
      /\ weight (reading false 600) = hundredths n
      /\ (Qabs (inject_Z n - Spec.product_hundredths (Z.testbit flags 0) raw) <= 1 # 2)%Q
      /\ (Z.testbit flags 0 = true \/ Z.even raw = true ->
          n = Spec.weight_hundredths (Z.testbit flags 0) raw).
Proof.
  split; [vm_compute; reflexivity|].
  apply (C6_weight_nearest_hundredth [x00; x58; x02] (reading false 600)).
  vm_compute. reflexivity.
Defined.


(** ** The order of numbers

    [SFcompare], which specifies the comparisons of doubles, is the
    lexicographic order of a key: the class of the number (negative infinity,
    negative, zero, positive, positive infinity), then exponent and mantissa,
    both negated for the negative numbers.  NaN has no key. *)

Lemma key_compare_Lt (a b : Z * Z * Z) : key_compare a b = Lt <-> key_lt a b.
Proof.
  unfold key_compare, key_lt.
  destruct (Z.compare_spec (fst (fst a)) (fst (fst b)));
    destruct (Z.compare_spec (snd (fst a)) (snd (fst b)));
    destruct (Z.compare_spec (snd a) (snd b));
    split; intros; try discriminate; try reflexivity; lia.
Qed.

Lemma key_compare_Gt (a b : Z * Z * Z) : key_compare a b = Gt <-> key_lt b a.
Proof.
  unfold key_compare, key_lt.
  destruct (Z.compare_spec (fst (fst a)) (fst (fst b)));
    destruct (Z.compare_spec (snd (fst a)) (snd (fst b)));
    destruct (Z.compare_spec (snd a) (snd b));
    split; intros; try discriminate; try reflexivity; lia.
Qed.

Lemma SFcompare_key (x y : spec_float) :
  SFcompare x y
  = match number_key x, number_key y with
    | Some a, Some b => Some (key_compare a b)
    | _, _ => None
    end.
Proof.
  destruct x as [sx|sx| |sx mx ex], y as [sy|sy| |sy my ey];
    try reflexivity;
    try (destruct sx; reflexivity);
    try (destruct sy; reflexivity);
    try (destruct sx, sy; reflexivity).
  destruct sx, sy; try reflexivity;
    unfold key_compare; cbn [SFcompare number_key fst snd].
  change (-1 ?= -1) with Eq. cbv iota.
  rewrite Z.compare_opp, (Z.compare_antisym ex ey).
  destruct (ex ?= ey); reflexivity.
Qed.

Lemma ltb_key (x y : float) :
  (x <? y)%float = true
  <-> exists a b, number_key (Prim2SF x) = Some a
                  /\ number_key (Prim2SF y) = Some b /\ key_lt a b.
Proof.
  rewrite ltb_spec. unfold SFltb. rewrite SFcompare_key.
  destruct (number_key (Prim2SF x)) as [a|], (number_key (Prim2SF y)) as [b|].
  - split.
    + intros H. exists a, b. repeat split. apply key_compare_Lt.
      destruct (key_compare a b); congruence.
    + intros (a' & b' & Ha & Hb & L).
      assert (a' = a) by congruence. assert (b' = b) by congruence. subst.
      apply key_compare_Lt in L. now rewrite L.
  - split; [discriminate|]. intros (? & ? & _ & ? & _). discriminate.
  - split; [discriminate|]. intros (? & ? & ? & _). discriminate.
  - split; [discriminate|]. intros (? & ? & ? & _). discriminate.
Qed.

Lemma leb_key (x y : float) :
  (x <=? y)%float = true
  <-> exists a b, number_key (Prim2SF x) = Some a
                  /\ number_key (Prim2SF y) = Some b /\ ~ key_lt b a.
Proof.
  rewrite leb_spec. unfold SFleb. rewrite SFcompare_key.
  destruct (number_key (Prim2SF x)) as [a|], (number_key (Prim2SF y)) as [b|].
  - split.
    + intros H. exists a, b. repeat split. intros L.
      apply key_compare_Gt in L. rewrite L in H. discriminate.
    + intros (a' & b' & Ha & Hb & L).
      assert (a' = a) by congruence. assert (b' = b) by congruence. subst.
      destruct (key_compare a b) eqn:E; try reflexivity.
      exfalso. apply L. now apply key_compare_Gt.
  - split; [discriminate|]. intros (? & ? & _ & ? & _). discriminate.
  - split; [discriminate|]. intros (? & ? & ? & _). discriminate.
  - split; [discriminate|]. intros (? & ? & ? & _). discriminate.
Qed.

(** [x <= a] and [a < b] give [x < b]. *)
Lemma leb_ltb_trans (x a b : float) :
  (x <=? a)%float = true -> (a <? b)%float = true -> (x <? b)%float = true.
Proof.
  intros H1 H2.
  apply leb_key in H1 as (kx & ka & Hx & Ha & L1).
  apply ltb_key in H2 as (ka' & kb & Ha' & Hb & L2).
  assert (ka' = ka) by congruence. subst ka'.
  apply ltb_key. exists kx, kb. repeat split; try assumption.
  unfold key_lt in *. lia.
Qed.

(** [b <= a] and [a <= x] exclude [x < b]. *)
Lemma leb_leb_not_ltb (b a x : float) :
  (b <=? a)%float = true -> (a <=? x)%float = true -> (x <? b)%float = false.
Proof.
  intros H1 H2.
  destruct (x <? b)%float eqn:H3; [exfalso|reflexivity].
  apply leb_key in H1 as (kb & ka & Hb & Ha & L1).
  apply leb_key in H2 as (ka' & kx & Ha' & Hx & L2).
  apply ltb_key in H3 as (kx' & kb' & Hx' & Hb' & L3).
  assert (ka' = ka) by congruence. assert (kx' = kx) by congruence.
  assert (kb' = kb) by congruence. subst.
  unfold key_lt in *. lia.
Qed.

(** ** The claims on the metric helpers *)

Lemma falsy_iff (v : Value) :
  ToBoolean v = false
  <-> v = Undefined \/ v = Null
      \/ exists x, v = Num x /\ ((x =? 0)%float = true \/ is_nan x = true).
Proof.
  destruct v as [| |x]; simpl.
  - split; [now left | reflexivity].
  - split; [now (right; left) | reflexivity].
  - rewrite negb_false_iff, orb_true_iff. unfold is_zero. split.
    + intros H. right. right. now exists x.
    + intros [H|[H|(y & E & H)]]; try discriminate. now injection E as ->.
Qed.

Lemma calculateBMI_falsy (weight height : Value) :
  ToBoolean weight = false \/ ToBoolean height = false ->
  calculateBMI weight height = 0%float.
Proof.
  unfold calculateBMI. intros [H|H]; rewrite H; simpl.
  - reflexivity.
  - now rewrite orb_true_r.
Qed.

(** ** The index on the weights and heights the application has *)

Lemma all_ints_spec (f : int -> bool) :
  forall n W0, all_ints n W0 f = true ->
  Uint63.to_Z W0 + Z.of_nat n < wB ->
  forall z, Uint63.to_Z W0 <= z < Uint63.to_Z W0 + Z.of_nat n ->
  f (Uint63.of_Z z) = true.
Proof.
  induction n as [|n IH]; intros W0 H B z Hz.
  - simpl in Hz. lia.
  - cbn [all_ints] in H. apply andb_true_iff in H as [H0 Hrest].
    pose proof (Uint63.to_Z_bounded W0) as B0.
    destruct (Z.eq_dec z (Uint63.to_Z W0)) as [->|Hne].
    + now rewrite Uint63.of_to_Z.
    + assert (E : Uint63.to_Z (W0 + 1)%uint63 = Uint63.to_Z W0 + 1).
      { rewrite Uint63.add_spec. change (Uint63.to_Z 1) with 1.
        apply Z.mod_small. lia. }
      apply (IH _ Hrest); rewrite E; lia.
Qed.

Lemma of_Z_nonneg (z : Z) : 0 <= z -> JS.of_Z z = of_uint63 (Uint63.of_Z z).
Proof. intros H. unfold JS.of_Z. destruct (Z.ltb_spec z 0); [lia | reflexivity]. Qed.

Lemma calculateBMI_truthy (weight height : float) :
  ToBoolean (Num weight) = true -> ToBoolean (Num height) = true ->
  calculateBMI (Num weight) (Num height)
  = (Math_round (weight / (height / 100 * (height / 100)) * 10) / 10)%float.
Proof.
  intros Hw Hh. unfold calculateBMI. rewrite Hw, Hh. reflexivity.
Qed.

Lemma nearest_tenth_sound (W h : Z) :
  1 <= W <= 65535 -> 1 <= h <= 300 ->
  ToBoolean (Num (JS.of_Z h)) = true ->
  nearest_tenth_checked (JS.of_Z h / 100 * (JS.of_Z h / 100))
    (Uint63.of_Z h * Uint63.of_Z h) (2 * (Uint63.of_Z h * Uint63.of_Z h))
    (Uint63.of_Z W) = true ->
  exists k : Z,
    0 <= k
    /\ calculateBMI (Num (hundredths W)) (Num (JS.of_Z h)) = (JS.of_Z k / 10)%float
    /\ 2 * Z.abs (1000 * W - k * (h * h)) <= h * h.
Proof.
  intros HW Hh Th. unfold nearest_tenth_checked, hundredths.
  rewrite (of_Z_nonneg W) by lia. cbv zeta.
  intros H. apply andb_true_iff in H as [Tw H].
  rewrite (calculateBMI_truthy _ _ Tw Th).
  set (r := (Math_round _ / 10)%float) in *.
  set (Wi := Uint63.of_Z W) in *. set (hi := Uint63.of_Z h) in *.
  assert (EW : Uint63.to_Z Wi = W).
  { unfold Wi. rewrite Uint63.of_Z_spec. apply Z.mod_small.
    change wB with 9223372036854775808. lia. }
  assert (Eh : Uint63.to_Z hi = h).
  { unfold hi. rewrite Uint63.of_Z_spec. apply Z.mod_small.
    change wB with 9223372036854775808. lia. }
  assert (Ehh : Uint63.to_Z (hi * hi)%uint63 = h * h).
  { rewrite Uint63.mul_spec, Eh. apply Z.mod_small.
    change wB with 9223372036854775808. nia. }
  assert (Ed : Uint63.to_Z (2 * (hi * hi))%uint63 = 2 * (h * h)).
  { rewrite Uint63.mul_spec, Ehh. change (Uint63.to_Z 2) with 2.
    apply Z.mod_small. change wB with 9223372036854775808. nia. }
  assert (En : Uint63.to_Z (2000 * Wi + hi * hi)%uint63 = 2000 * W + h * h).
  { rewrite Uint63.add_spec, Uint63.mul_spec, Ehh, EW.
    change (Uint63.to_Z 2000) with 2000.
    rewrite (Z.mod_small (2000 * W)) by (change wB with 9223372036854775808; lia).
    apply Z.mod_small. change wB with 9223372036854775808. nia. }
  set (d := (2 * (hi * hi))%uint63) in *.
  set (n := (2000 * Wi + hi * hi)%uint63) in *.
  assert (Ek : Uint63.to_Z (n / d)%uint63 = (2000 * W + h * h) / (2 * (h * h))).
  { now rewrite Uint63.div_spec, En, Ed. }
  assert (Hpos : 0 < h * h) by nia.
  pose proof (Z.div_mod (2000 * W + h * h) (2 * (h * h)) ltac:(lia)) as DM.
  pose proof (Z.mod_pos_bound (2000 * W + h * h) (2 * (h * h)) ltac:(lia)) as MB.
  set (q := (2000 * W + h * h) / (2 * (h * h))) in *.
  set (m := (2000 * W + h * h) mod (2 * (h * h))) in *.
  assert (Hq : 0 <= q) by (apply Z.div_pos; lia).
  apply orb_true_iff in H as [H|H].
  - exists q. split; [exact Hq|]. split.
    + apply Leibniz.eqb_spec in H. rewrite H.
      rewrite of_Z_nonneg by exact Hq. rewrite <- Ek, Uint63.of_to_Z. reflexivity.
    + nia.
  - apply andb_true_iff in H as [T H].
    apply Uint63.eqb_spec in T.
    assert (Em : m = 0).
    { unfold m. rewrite <- En, <- Ed, <- Uint63.mod_spec, T. reflexivity. }
    assert (Hq1 : 1 <= q) by nia.
    exists (q - 1). split; [lia|]. split.
    + apply Leibniz.eqb_spec in H. rewrite H.
      rewrite of_Z_nonneg by lia.
      replace (Uint63.of_Z (q - 1)) with (n / d - 1)%uint63; [reflexivity|].
      apply Uint63.to_Z_inj. rewrite Uint63.sub_spec, Ek, Uint63.of_Z_spec.
      change (Uint63.to_Z 1) with 1. fold q. reflexivity.
    + nia.
Qed.

Lemma tenths_of_quotient (W h k : Z) :
  0 < h ->
  2 * Z.abs (1000 * W - k * (h * h)) <= h * h ->
  (Qabs (Spec.bmi (W # 100) (inject_Z h) * 10 - inject_Z k) <= 1 # 2)%Q.
Proof.
  intros Hh H.
  assert (P : (0 < inject_Z (h * h))%Q).
  { change 0%Q with (inject_Z 0). rewrite <- Zlt_Qlt. nia. }
  assert (E : (Spec.bmi (W # 100) (inject_Z h) * 10 - inject_Z k
               == (1000 * inject_Z W - inject_Z (k * (h * h))) / inject_Z (h * h))%Q).
  { unfold Spec.bmi. rewrite (Qmake_Qdiv W 100), !inject_Z_mult.
    change (inject_Z (Z.pos 100)) with 100%Q.
    field. intros C. rewrite inject_Z_mult, C in P. discriminate. }
  rewrite E. clear E. apply Qabs_Qle_condition.
  assert (L : (- inject_Z (h * h) <= 2 * (1000 * inject_Z W - inject_Z (k * (h * h)))
               <= inject_Z (h * h))%Q).
  { unfold Qle, Qopp, Qmult, Qminus, Qplus, Qopp, inject_Z; cbn [Qnum Qden Pos.mul]. lia. }
  destruct L as [L1 L2].
  split.
  - apply Qle_shift_div_l; [exact P|]. lra.
  - apply Qle_shift_div_r; [exact P|]. lra.
Qed.

(** Every weight from 0.01 to 655.35 at every height from 1 to 300 cm. *)
Lemma bmi_rounding_checked :
  all_ints 300 1%uint63 (all_weights_checked (Z.to_nat 65535)) = true.
Proof. vm_compute. reflexivity. Qed.

Lemma calculateBMI_nearest_tenth (W h : Z) :
  1 <= W <= 65535 -> 1 <= h <= 300 ->
  exists k : Z,
    calculateBMI (Num (hundredths W)) (Num (JS.of_Z h)) = (JS.of_Z k / 10)%float
    /\ (Qabs (Spec.bmi (W # 100) (inject_Z h) * 10 - inject_Z k) <= 1 # 2)%Q.
Proof.
  intros HW Hh.
  assert (B : Uint63.wB = 9223372036854775808) by reflexivity.
  assert (O : Uint63.to_Z 1 = 1) by reflexivity.
  assert (N : Z.of_nat (Z.to_nat 65535) = 65535) by (apply Z2Nat.id; lia).
  assert (M : Z.of_nat 300 = 300) by reflexivity.
  assert (R : all_weights_checked (Z.to_nat 65535) (Uint63.of_Z h) = true).
  { apply (all_ints_spec _ _ _ bmi_rounding_checked); rewrite O, M; lia. }
  unfold all_weights_checked in R. cbv zeta in R.
  apply andb_true_iff in R as [Th R].
  rewrite <- (of_Z_nonneg h) in Th, R by lia.
  assert (C : nearest_tenth_checked (JS.of_Z h / 100 * (JS.of_Z h / 100))
                (Uint63.of_Z h * Uint63.of_Z h)
                (2 * (Uint63.of_Z h * Uint63.of_Z h)) (Uint63.of_Z W) = true).
  { apply (all_ints_spec _ _ _ R); rewrite O, N; lia. }
  destruct (nearest_tenth_sound W h HW Hh Th C) as (k & _ & E & Hk).
  exists k. split; [exact E|]. apply tenths_of_quotient; [lia | exact Hk].
Qed.

(** C2, as stated, fails, in both of its parts.  A strictly negative weight
    is not answered by 0: [calculateBMI(-70, 175)] is -22.9.  And the result
    is not the quotient rounded to one decimal place: 80 / 1.6^2 is 31.25,
    which rounds to 31.3, while [calculateBMI(80, 160)] is 31.2, the double
    for 1.6^2 lying above 2.56.  No other rule for ties fits either: 85 / 2^2
    is 21.25, and [calculateBMI(85, 200)] is 21.3. *)
Lemma C2_counterexample :
  (-70 <? 0)%float = true
  /\ calculateBMI (Num (-70)) (Num 175) = (-22.9)%float
  /\ (calculateBMI (Num (-70)) (Num 175) =? 0)%float = false
  /\ (Spec.bmi 80 160 == 3125 # 100)%Q
  /\ Spec.bmi_tenths 80 160 = 313
  /\ calculateBMI (Num 80) (Num 160) = (JS.of_Z 312 / 10)%float
  /\ calculateBMI (Num 80) (Num 160) = 31.2%float
  /\ (Spec.bmi 85 200 == 2125 # 100)%Q
  /\ calculateBMI (Num 85) (Num 200) = 21.3%float.
Proof. repeat split; vm_compute; reflexivity. Qed.

(** C2, amended: [calculateBMI] returns 0 whenever either input is falsy,
    that is absent ([null] or [undefined]), zero or NaN; a strictly negative
    input is not answered by 0: bmi(-70, 175) = -22.9.  For a weight of a
    whole number of hundredths from 0.01 to 655.35, which are the weights the
    decoder gives, and a height of a whole number of centimetres from 1 to
    300, it returns a number with one decimal place, [k / 10], that is
    nearest to weight / (height/100)^2: the quotient in tenths is at most 1/2
    away from [k].  A quotient halfway between two such numbers goes to
    either: bmi(80, 160) = 31.2 and bmi(85, 200) = 21.3.  In particular
    bmi(70, 175) = 22.9, bmi(0, 175) = 0 and bmi(70, 0) = 0. *)
Theorem C2_bmi_sentinel_and_nearest_tenth :
  (forall weight height : Value,
      ToBoolean weight = false \/ ToBoolean height = false ->
      calculateBMI weight height = 0%float)
  /\ (forall v : Value,
        ToBoolean v = false
        <-> v = Undefined \/ v = Null
            \/ exists x, v = Num x /\ ((x =? 0)%float = true \/ is_nan x = true))
  /\ (forall W h : Z,
        1 <= W <= 65535 -> 1 <= h <= 300 ->
        exists k : Z,
          calculateBMI (Num (hundredths W)) (Num (JS.of_Z h))
          = (JS.of_Z k / 10)%float
          /\ (Qabs (Spec.bmi (W # 100) (inject_Z h) * 10 - inject_Z k)
              <= 1 # 2)%Q)
  /\ calculateBMI (Num (-70)) (Num 175) = (-22.9)%float
  /\ calculateBMI (Num 80) (Num 160) = 31.2%float
  /\ calculateBMI (Num 85) (Num 200) = 21.3%float
  /\ calculateBMI (Num 70) (Num 175) = 22.9%float
  /\ calculateBMI (Num 0) (Num 175) = 0%float
  /\ calculateBMI (Num 70) (Num 0) = 0%float.
Proof.
  split; [exact calculateBMI_falsy|]. split; [exact falsy_iff|].
  split; [exact calculateBMI_nearest_tenth|].
  repeat split; vm_compute; reflexivity.
Qed.

Lemma C2_bmi_sentinel_and_nearest_tenth_witness :
  (ToBoolean Null = false \/ ToBoolean (Num 175) = false)
  /\ calculateBMI Null (Num 175) = 0%float
  /\ 1 <= 8000 <= 65535
  /\ 1 <= 160 <= 300
  /\ exists k : Z,
       calculateBMI (Num (hundredths 8000)) (Num (JS.of_Z 160))
       = (JS.of_Z k / 10)%float
       /\ (Qabs (Spec.bmi (8000 # 100) (inject_Z 160) * 10 - inject_Z k)
           <= 1 # 2)%Q.
Proof.
  destruct C2_bmi_sentinel_and_nearest_tenth as (Hfalsy & _ & Hnear & _).
  split; [left; reflexivity|].
  split; [apply Hfalsy; left; reflexivity|].
  split; [lia|]. split; [lia|]. apply Hnear; lia.
Defined.

(** C7: the category boundaries.  A number below 18.5 is "Podváha"
    (underweight); from 18.5 and below 25, "Normálna" (normal); from 25 and
    below 30, "Nadváha" (overweight); from 30, "Obezita" (obese).  In
    particular 18.5 is normal, 25 is overweight and 30 is obese. *)
Theorem C7_category_boundaries (bmi : float) :
  ((bmi <? 18.5)%float = true -> getBMICategory (Num bmi) = Podvaha)
  /\ ((18.5 <=? bmi)%float = true -> (bmi <? 25)%float = true ->
      getBMICategory (Num bmi) = Normalna)
  /\ ((25 <=? bmi)%float = true -> (bmi <? 30)%float = true ->
      getBMICategory (Num bmi) = Nadvaha)
  /\ ((30 <=? bmi)%float = true -> getBMICategory (Num bmi) = Obezita)
  /\ getBMICategory (Num 18.5) = Normalna
  /\ getBMICategory (Num 25) = Nadvaha
  /\ getBMICategory (Num 30) = Obezita.
Proof.
  unfold getBMICategory; cbn [ToNumber].
  split; [|split; [|split; [|split; [|repeat split; vm_compute; reflexivity]]]].
  - intros H. now rewrite H.
  - intros H1 H2.
    rewrite (leb_leb_not_ltb 18.5 18.5 bmi eq_refl H1), H2. reflexivity.
  - intros H1 H2.
    rewrite (leb_leb_not_ltb 18.5 25 bmi eq_refl H1),
            (leb_leb_not_ltb 25 25 bmi eq_refl H1), H2. reflexivity.
  - intros H.
    rewrite (leb_leb_not_ltb 18.5 30 bmi eq_refl H),
            (leb_leb_not_ltb 25 30 bmi eq_refl H),
            (leb_leb_not_ltb 30 30 bmi eq_refl H). reflexivity.
Qed.

Lemma C7_category_boundaries_witness :
  ((18.49 <? 18.5)%float = true /\ getBMICategory (Num 18.49) = Podvaha)
  /\ ((18.5 <=? 22.9)%float = true /\ (22.9 <? 25)%float = true
      /\ getBMICategory (Num 22.9) = Normalna)
  /\ ((25 <=? 29.99)%float = true /\ (29.99 <? 30)%float = true
      /\ getBMICategory (Num 29.99) = Nadvaha)
  /\ ((30 <=? 41.5)%float = true /\ getBMICategory (Num 41.5) = Obezita).
Proof.
  split; [split; [reflexivity|]|split; [split; [reflexivity|split; [reflexivity|]]|
          split; [split; [reflexivity|split; [reflexivity|]]|split; [reflexivity|]]]].
  - apply (proj1 (C7_category_boundaries 18.49)). reflexivity.
  - apply (proj1 (proj2 (C7_category_boundaries 22.9))); reflexivity.
  - apply (proj1 (proj2 (proj2 (C7_category_boundaries 29.99)))); reflexivity.
  - apply (proj1 (proj2 (proj2 (proj2 (C7_category_boundaries 41.5))))). reflexivity.
Defined.

(** C10: [getBMICategory] is total.  Every input, a number of any sign, NaN
    or an absent value, gets one of the four categories, which are pairwise
    distinct; zero and the negative numbers are "Podváha" (underweight), and
    so is the 0 that [calculateBMI] returns for unknown inputs. *)
Theorem C10_category_total :
  (forall bmi : Value,
      In (getBMICategory bmi) [Podvaha; Normalna; Nadvaha; Obezita])
  /\ NoDup [Podvaha; Normalna; Nadvaha; Obezita]
  /\ (forall x : float, (x <=? 0)%float = true -> getBMICategory (Num x) = Podvaha)
  /\ getBMICategory (Num 0) = Podvaha
  /\ (forall weight height : Value,
        ToBoolean weight = false \/ ToBoolean height = false ->
        getBMICategory (Num (calculateBMI weight height)) = Podvaha).
Proof.
  split; [|split; [|split; [|split]]].
  - intros bmi. unfold getBMICategory.
    destruct (ToNumber bmi <? 18.5)%float; [simpl; tauto|].
    destruct (ToNumber bmi <? 25)%float; [simpl; tauto|].
    destruct (ToNumber bmi <? 30)%float; simpl; tauto.
  - repeat constructor; simpl; intuition discriminate.
  - intros x H. unfold getBMICategory; cbn [ToNumber].
    now rewrite (leb_ltb_trans x 0 18.5 H eq_refl).
  - vm_compute. reflexivity.
  - intros weight height H.
    rewrite (calculateBMI_falsy weight height H).
    vm_compute. reflexivity.
Qed.

Lemma C10_category_total_witness :
  (-3.5 <=? 0)%float = true
  /\ getBMICategory (Num (-3.5)) = Podvaha
  /\ (ToBoolean Null = false \/ ToBoolean (Num 175) = false)
  /\ getBMICategory (Num (calculateBMI Null (Num 175))) = Podvaha.
Proof.
  split; [reflexivity|].
  split; [apply (proj1 (proj2 (proj2 C10_category_total))); reflexivity|].
  split; [left; reflexivity|].
  apply (proj2 (proj2 (proj2 (proj2 C10_category_total)))). left. reflexivity.
Defined.

(** ** The claims on negotiation and teardown *)

Ltac run_gatt :=
  unfold subscribeToWeight, Gatt.bind, Gatt.try_catch, Gatt.ret,
    connect, getPrimaryService, getCharacteristic, startNotifications,
    addEventListener, identity, record,
    WEIGHT_SCALE_SERVICE_UUID, BODY_COMPOSITION_SERVICE_UUID,
    WEIGHT_MEASUREMENT_CHAR_UUID, BODY_COMP_MEASUREMENT_CHAR_UUID in *;
  cbn [connected notifying listeners calls negb fst snd server_device
       service_server service_uuid characteristic_service characteristic_uuid] in *.

Ltac settle_calls :=
  let c := fresh "c" in
  let p := fresh "p" in
  let Hin := fresh "Hin" in
  let Hp := fresh "Hp" in
  intros c p Hin Hp; simpl in Hin;
  repeat (destruct Hin as [<-|Hin]); try contradiction;
  simpl in Hp; try discriminate;
  injection Hp as <-; auto.

(** What the teardown closure does, from any state of the link. *)
Lemma teardown_run {A} (c : Characteristic) (server : Server) (t : State A) :
  teardown c server t
  = (Normal tt,
     {| connected := false; notifying := []; listeners := listeners t;
        calls := calls t ++ [StopNotifications (fst (identity c)) (snd (identity c));
                             Disconnect] |}).
Proof.
  unfold teardown, Gatt.bind, stopNotifications, disconnect, record.
  cbn [connected notifying listeners calls].
  destruct (connected t); cbn [negb connected notifying listeners calls];
    rewrite <- app_assoc; reflexivity.
Qed.

(** A closure handed back by [subscribeToWeight] is the teardown of one of
    the two supported pairs, on which notifications run and the listener is
    registered. *)
Lemma subscribeToWeight_returns {A} (device : Peripheral) (onData : Measurement -> A)
  (s s' : State A) (cleanup : Teardown A) :
  subscribeToWeight device onData s = (Normal cleanup, s') ->
  exists c : Characteristic,
    cleanup = teardown c {| server_device := device |}
    /\ (identity c = weight_scale_pair \/ identity c = body_composition_pair)
    /\ connected s' = true
    /\ notifying s' = identity c :: notifying s
    /\ listeners s' = listeners s ++ [(identity c, onValueChanged onData)].
Proof.
  run_gatt.
  destruct (connect_answer device); [|discriminate].
  run_gatt.
  destruct (service_answer device 6173); run_gatt.
  - destruct (characteristic_answer device 6173 10909); [|discriminate].
    run_gatt.
    destruct (notify_answer device 6173 10909); [|discriminate].
    intros H. injection H as <- <-. eexists. split; [reflexivity|].
    repeat split. now left.
  - destruct (service_answer device 6171); [|discriminate]. run_gatt.
    destruct (characteristic_answer device 6171 10908); [|discriminate].
    run_gatt.
    destruct (notify_answer device 6171 10908); [|discriminate].
    intros H. injection H as <- <-. eexists. split; [reflexivity|].
    repeat split. now right.
Qed.

(** C1, as stated, fails: a peripheral with neither service makes
    [subscribeToWeight] fail, and the connection it opened is still open when
    the error reaches the caller; no disconnect was requested. *)
Lemma C1_counterexample :
  connect_answer heart_rate_monitor = Normal tt
  /\ is_throw (service_answer heart_rate_monitor WEIGHT_SCALE_SERVICE_UUID) = true
  /\ is_throw (service_answer heart_rate_monitor BODY_COMPOSITION_SERVICE_UUID) = true
  /\ fst (subscribeToWeight heart_rate_monitor weight initial)
     = Throw (DOMException "NotFoundError")
  /\ connected (snd (subscribeToWeight heart_rate_monitor weight initial)) = true
  /\ calls (snd (subscribeToWeight heart_rate_monitor weight initial))
     = [Connect; GetPrimaryService 0x181d; GetPrimaryService 0x181b].
Proof. repeat split; vm_compute; reflexivity. Qed.

(** C1, amended: when the primary Weight Scale service and then the fallback
    Body Composition service both fail to resolve, the operation fails with
    the error of the fallback resolution, after exactly the three requests
    connect, primary, fallback; no disconnect is requested, and the transport
    connection opened by connect stays open. *)
Theorem C1_both_fail_connection_left_open {A}
  (device : Peripheral) (onData : Measurement -> A) (s : State A) (e1 e2 : Error) :
  connect_answer device = Normal tt ->
  service_answer device WEIGHT_SCALE_SERVICE_UUID = Throw e1 ->
  service_answer device BODY_COMPOSITION_SERVICE_UUID = Throw e2 ->
  exists s' : State A,
    subscribeToWeight device onData s = (Throw e2, s')
    /\ connected s' = true
    /\ calls s' = calls s ++ [Connect;
                              GetPrimaryService WEIGHT_SCALE_SERVICE_UUID;
                              GetPrimaryService BODY_COMPOSITION_SERVICE_UUID]
    /\ ~ In Disconnect [Connect;
                        GetPrimaryService WEIGHT_SCALE_SERVICE_UUID;
                        GetPrimaryService BODY_COMPOSITION_SERVICE_UUID]
    /\ notifying s' = notifying s
    /\ listeners s' = listeners s.
Proof.
  intros Hc H1 H2. run_gatt. rewrite Hc. run_gatt. rewrite H1. run_gatt.
  rewrite H2. eexists. split; [reflexivity|]. cbn [connected calls notifying listeners].
  repeat split.
  - rewrite <- !app_assoc. reflexivity.
  - simpl. intuition discriminate.
Qed.

Lemma C1_both_fail_connection_left_open_witness :
  connect_answer heart_rate_monitor = Normal tt
  /\ service_answer heart_rate_monitor WEIGHT_SCALE_SERVICE_UUID
     = Throw (DOMException "NotFoundError")
  /\ service_answer heart_rate_monitor BODY_COMPOSITION_SERVICE_UUID
     = Throw (DOMException "NotFoundError")
  /\ exists s' : State float,
      subscribeToWeight heart_rate_monitor weight initial
      = (Throw (DOMException "NotFoundError"), s')
      /\ connected s' = true
      /\ calls s' = calls (@initial float)
                    ++ [Connect;
                        GetPrimaryService WEIGHT_SCALE_SERVICE_UUID;
                        GetPrimaryService BODY_COMPOSITION_SERVICE_UUID]
      /\ ~ In Disconnect [Connect;
                          GetPrimaryService WEIGHT_SCALE_SERVICE_UUID;
                          GetPrimaryService BODY_COMPOSITION_SERVICE_UUID]
      /\ notifying s' = notifying (@initial float)
      /\ listeners s' = listeners (@initial float).
Proof.
  split; [reflexivity|]. split; [reflexivity|]. split; [reflexivity|].
  apply (C1_both_fail_connection_left_open heart_rate_monitor weight initial
           (DOMException "NotFoundError") (DOMException "NotFoundError"));
    reflexivity.
Defined.

(** C4: once connected, negotiation asks for the primary Weight Scale
    service first, and every later request about a characteristic names one
    of the two fixed pairs.  When the primary service fails to resolve and the
    Body Composition service resolves, the next requests are the fallback
    service and its own characteristic 0x2A9C, no request names another
    characteristic, the closure handed back is the teardown of that
    characteristic, on which notifications run and the listener is
    registered, and the subscription succeeds as soon as the characteristic
    resolves and notifications start. *)
Theorem C4_primary_first_fallback_own_pair {A}
  (device : Peripheral) (onData : Measurement -> A) (s : State A) :
  connect_answer device = Normal tt ->
  exists (r : completion (Teardown A)) (s' : State A) (rest : list Call),
    subscribeToWeight device onData s = (r, s')
    /\ calls s' = calls s ++ Connect
                          :: GetPrimaryService WEIGHT_SCALE_SERVICE_UUID :: rest
    /\ (forall c p, In c rest -> characteristic_of c = Some p ->
        p = weight_scale_pair \/ p = body_composition_pair)
    /\ (forall e : Error,
        service_answer device WEIGHT_SCALE_SERVICE_UUID = Throw e ->
        service_answer device BODY_COMPOSITION_SERVICE_UUID = Normal tt ->
        (exists rest' : list Call,
            rest = GetPrimaryService BODY_COMPOSITION_SERVICE_UUID
                   :: GetCharacteristic BODY_COMPOSITION_SERVICE_UUID
                        BODY_COMP_MEASUREMENT_CHAR_UUID :: rest')
        /\ (forall c p, In c rest -> characteristic_of c = Some p ->
            p = body_composition_pair)
        /\ (forall cleanup : Teardown A, r = Normal cleanup ->
            cleanup = teardown (body_composition_characteristic device)
                        {| server_device := device |}
            /\ notifying s' = body_composition_pair :: notifying s
            /\ listeners s'
               = listeners s ++ [(body_composition_pair, onValueChanged onData)])
        /\ (characteristic_answer device BODY_COMPOSITION_SERVICE_UUID
              BODY_COMP_MEASUREMENT_CHAR_UUID = Normal tt ->
            notify_answer device BODY_COMPOSITION_SERVICE_UUID
              BODY_COMP_MEASUREMENT_CHAR_UUID = Normal tt ->
            is_throw r = false)).
Proof.
  intros Hc. unfold weight_scale_pair, body_composition_pair,
    body_composition_characteristic.
  run_gatt. rewrite Hc. run_gatt.
  destruct (service_answer device 6173) eqn:S1; run_gatt.
  - destruct (characteristic_answer device 6173 10909); run_gatt;
      [destruct (notify_answer device 6173 10909)|];
      (do 3 eexists; split; [reflexivity|]; cbn [calls];
       split; [rewrite <- !app_assoc; reflexivity|];
       split; [settle_calls | intros; discriminate]).
  - destruct (service_answer device 6171) eqn:S2; run_gatt.
    + destruct (characteristic_answer device 6171 10908) eqn:S3; run_gatt;
        [destruct (notify_answer device 6171 10908) eqn:S4|];
        (do 3 eexists; split; [reflexivity|]; cbn [calls];
         split; [rewrite <- !app_assoc; reflexivity|];
         split; [settle_calls|];
         intros e' _ _;
         split; [eexists; reflexivity|];
         split; [settle_calls|];
         split; [intros cleanup E; try discriminate;
                 injection E as <-; repeat split |
                 intros A' B'; try discriminate; reflexivity]).
    + do 3 eexists; split; [reflexivity|]; cbn [calls].
      split; [rewrite <- !app_assoc; reflexivity|].
      split; [settle_calls|]. intros e' _ E. discriminate.
Qed.

Lemma C4_primary_first_fallback_own_pair_witness :
  connect_answer body_composition_scale = Normal tt
  /\ service_answer body_composition_scale WEIGHT_SCALE_SERVICE_UUID
     = Throw (DOMException "NotFoundError")
  /\ service_answer body_composition_scale BODY_COMPOSITION_SERVICE_UUID = Normal tt
  /\ exists (cleanup : Teardown float) (s' : State float),
      subscribeToWeight body_composition_scale weight initial = (Normal cleanup, s')
      /\ cleanup = teardown (body_composition_characteristic body_composition_scale)
                     {| server_device := body_composition_scale |}
      /\ notifying s' = [body_composition_pair]
      /\ exists rest' : list Call,
          calls s' = [Connect;
                      GetPrimaryService WEIGHT_SCALE_SERVICE_UUID;
                      GetPrimaryService BODY_COMPOSITION_SERVICE_UUID;
                      GetCharacteristic BODY_COMPOSITION_SERVICE_UUID
                        BODY_COMP_MEASUREMENT_CHAR_UUID] ++ rest'.
Proof.
  split; [reflexivity|]. split; [reflexivity|]. split; [reflexivity|].
  destruct (C4_primary_first_fallback_own_pair body_composition_scale weight
              initial eq_refl)
    as (r & s' & rest & Hrun & Hcalls & _ & Hfallback).
  destruct (Hfallback (DOMException "NotFoundError") eq_refl eq_refl)
    as ((rest' & Hrest) & _ & Hbound & Hready).
  specialize (Hready eq_refl eq_refl).
  destruct r as [cleanup|e]; [|discriminate Hready].
  destruct (Hbound cleanup eq_refl) as (Hc & Hn & _).
  exists cleanup, s'. split; [exact Hrun|]. split; [exact Hc|].
  split; [exact Hn|]. exists rest'. rewrite Hcalls, Hrest. reflexivity.
Defined.

(** C9: the teardown handed back by [subscribeToWeight] can be invoked twice
    in a row, from any state of the link: neither call throws, the first one
    leaves notifications stopped and the connection closed, and the second one
    leaves that unchanged. *)
Theorem C9_teardown_idempotent {A}
  (device : Peripheral) (onData : Measurement -> A) (s s' : State A)
  (cleanup : Teardown A) :
  subscribeToWeight device onData s = (Normal cleanup, s') ->
  forall t : State A,
  exists t1 t2 : State A,
    cleanup t = (Normal tt, t1)
    /\ cleanup t1 = (Normal tt, t2)
    /\ connected t1 = false /\ notifying t1 = []
    /\ connected t2 = connected t1
    /\ notifying t2 = notifying t1
    /\ listeners t2 = listeners t1.
Proof.
  intros H t.
  destruct (subscribeToWeight_returns device onData s s' cleanup H) as (c & -> & _).
  do 2 eexists.
  split; [apply teardown_run|]. split; [apply teardown_run|].
  repeat split.
Qed.

Lemma C9_teardown_idempotent_witness :
  let cleanup : Teardown float :=
    teardown (weight_scale_characteristic mi_scale_2)
      {| server_device := mi_scale_2 |} in
  let s' : State float :=
    {| connected := true;
       notifying := [weight_scale_pair];
       listeners := [(weight_scale_pair, onValueChanged weight)];
       calls := [Connect; GetPrimaryService 0x181d;
                 GetCharacteristic 0x181d 0x2a9d;
                 StartNotifications 0x181d 0x2a9d;
                 AddEventListener 0x181d 0x2a9d] |} in
  subscribeToWeight mi_scale_2 weight initial = (Normal cleanup, s')
  /\ exists t1 t2 : State float,
      cleanup s' = (Normal tt, t1)
      /\ cleanup t1 = (Normal tt, t2)
      /\ connected t1 = false /\ notifying t1 = []
      /\ connected t2 = connected t1
      /\ notifying t2 = notifying t1
      /\ listeners t2 = listeners t1.
Proof.
  intros cleanup s'. split; [reflexivity|].
  apply (C9_teardown_idempotent mi_scale_2 weight initial s' cleanup). reflexivity.
Defined.

(** The promise of the second [stopNotifications] is rejected, on the closed
    connection; the closure does not look at it. *)
Lemma second_stopNotifications_rejected {A}
  (c : Characteristic) (server : Server) (t : State A) :
  fst (stopNotifications c (snd (teardown c server t)))
  = Normal (Throw (DOMException "NetworkError")).
Proof. rewrite teardown_run. reflexivity. Qed.

(** ** The pipeline on a scale that exposes the fallback service only

    The frame 00 DC 01 carries the raw value 476: the listener hands the
    weight 2.38 to the application, which computes the index 0.7 for a height
    of 180 cm; after the teardown a notification reaches no listener. *)
Lemma fallback_scale_end_to_end :
  exists (cleanup : Teardown float) (s' : State float),
    subscribeToWeight body_composition_scale weight initial = (Normal cleanup, s')
    /\ notify body_composition_pair [x00; xdc; x01] s' = [Normal (Some 2.38%float)]
    /\ calculateBMI (Num 2.38) (Num 180) = 0.7%float
    /\ notify body_composition_pair [x00; xdc] s' = [Normal None]
    /\ notify weight_scale_pair [x00; xdc; x01] s' = []
    /\ notify body_composition_pair [x00; xdc; x01] (snd (cleanup s')) = [].
Proof.
  exists (teardown (body_composition_characteristic body_composition_scale)
            {| server_device := body_composition_scale |}),
         (snd (subscribeToWeight body_composition_scale weight initial)).
  repeat split; vm_compute; reflexivity.
Qed.

(** * Further properties of the code *)

(** ** More of the order of numbers *)

Lemma ltb_trans (x y z : float) :
  (x <? y)%float = true -> (y <? z)%float = true -> (x <? z)%float = true.
Proof.
  intros H1 H2.
  apply ltb_key in H1 as (kx & ky & Hx & Hy & L1).
  apply ltb_key in H2 as (ky' & kz & Hy' & Hz & L2).
  assert (ky' = ky) by congruence. subst ky'.
  apply ltb_key. exists kx, kz. repeat split; try assumption.
  unfold key_lt in *. lia.
Qed.

Lemma leb_trans (x y z : float) :
  (x <=? y)%float = true -> (y <=? z)%float = true -> (x <=? z)%float = true.
Proof.
  intros H1 H2.
  apply leb_key in H1 as (kx & ky & Hx & Hy & L1).
  apply leb_key in H2 as (ky' & kz & Hy' & Hz & L2).
  assert (ky' = ky) by congruence. subst ky'.
  apply leb_key. exists kx, kz. repeat split; try assumption.
  unfold key_lt in *. lia.
Qed.

Lemma ltb_leb (x y : float) : (x <? y)%float = true -> (x <=? y)%float = true.
Proof.
  intros H. apply ltb_key in H as (kx & ky & Hx & Hy & L).
  apply leb_key. exists kx, ky. repeat split; try assumption.
  unfold key_lt in *. lia.
Qed.

Lemma ltb_leb_trans (x y z : float) :
  (x <? y)%float = true -> (y <=? z)%float = true -> (x <? z)%float = true.
Proof.
  intros H1 H2.
  apply ltb_key in H1 as (kx & ky & Hx & Hy & L1).
  apply leb_key in H2 as (ky' & kz & Hy' & Hz & L2).
  assert (ky' = ky) by congruence. subst ky'.
  apply ltb_key. exists kx, kz. repeat split; try assumption.
  unfold key_lt in *. lia.
Qed.

(** NaN is the one number without a key. *)
Lemma is_nan_key (x : float) :
  is_nan x = true <-> number_key (Prim2SF x) = None.
Proof.
  unfold is_nan. rewrite eqb_spec. unfold SFeqb. rewrite SFcompare_key.
  destruct (number_key (Prim2SF x)) as [a|].
  - assert (E : key_compare a a = Eq).
    { destruct (key_compare a a) eqn:C; [reflexivity| |].
      - apply key_compare_Lt in C. unfold key_lt in C. lia.
      - apply key_compare_Gt in C. unfold key_lt in C. lia. }
    rewrite E. split; discriminate.
  - split; reflexivity.
Qed.

Lemma not_nan_key (x : float) :
  is_nan x = false -> exists a, number_key (Prim2SF x) = Some a.
Proof.
  intros H. destruct (number_key (Prim2SF x)) as [a|] eqn:K; [now exists a|].
  apply is_nan_key in K. congruence.
Qed.

(** Two numbers are comparable unless one is NaN. *)
Lemma not_ltb_leb (x y : float) :
  is_nan x = false -> is_nan y = false ->
  (x <? y)%float = false -> (y <=? x)%float = true.
Proof.
  intros Nx Ny H.
  destruct (not_nan_key x Nx) as (a & Ka). destruct (not_nan_key y Ny) as (b & Kb).
  apply leb_key. exists b, a. repeat split; try assumption.
  intros L. assert (T : (x <? y)%float = true) by (apply ltb_key; now exists a, b).
  congruence.
Qed.

Lemma ltb_not_nan (x y : float) : (x <? y)%float = true -> is_nan x = false.
Proof.
  intros H. apply ltb_key in H as (a & b & Ka & _).
  destruct (is_nan x) eqn:N; [|reflexivity].
  apply is_nan_key in N. congruence.
Qed.

Lemma leb_not_nan_r (x y : float) : (x <=? y)%float = true -> is_nan y = false.
Proof.
  intros H. apply leb_key in H as (a & b & _ & Kb & _).
  destruct (is_nan y) eqn:N; [|reflexivity].
  apply is_nan_key in N. congruence.
Qed.

Lemma eqb_key (x y : float) :
  (x =? y)%float = true
  <-> exists a b, number_key (Prim2SF x) = Some a
                  /\ number_key (Prim2SF y) = Some b
                  /\ ~ key_lt a b /\ ~ key_lt b a.
Proof.
  rewrite eqb_spec. unfold SFeqb. rewrite SFcompare_key.
  destruct (number_key (Prim2SF x)) as [a|], (number_key (Prim2SF y)) as [b|].
  - split.
    + intros H. exists a, b. repeat split.
      * intros L. apply key_compare_Lt in L. rewrite L in H. discriminate.
      * intros L. apply key_compare_Gt in L. rewrite L in H. discriminate.
    + intros (a' & b' & Ha & Hb & L1 & L2).
      assert (a' = a) by congruence. assert (b' = b) by congruence. subst.
      destruct (key_compare a b) eqn:E; [reflexivity| |].
      * exfalso. apply L1. now apply key_compare_Lt.
      * exfalso. apply L2. now apply key_compare_Gt.
  - split; [discriminate|]. intros (? & ? & _ & ? & _). discriminate.
  - split; [discriminate|]. intros (? & ? & ? & _). discriminate.
  - split; [discriminate|]. intros (? & ? & ? & _). discriminate.
Qed.

(** ** The frame decoder, beyond the claims *)

Lemma hundredths_increase_checked :
  all_from (Z.to_nat 65536) 0 hundredths_increase = true.
Proof. vm_compute. reflexivity. Qed.

Lemma hundredths_lt (a b : Z) :
  0 <= a -> a < b -> b <= 65536 ->
  (hundredths a <? hundredths b)%float = true.
Proof.
  intros Ha Hab Hb.
  assert (Step : forall n, 0 <= n < 65536 ->
                           (hundredths n <? hundredths (n + 1))%float = true).
  { intros n Hn. apply (all_from_spec _ _ _ hundredths_increase_checked n).
    rewrite Z2Nat.id; lia. }
  assert (G : forall d : nat, a + 1 + Z.of_nat d <= 65536 ->
                              (hundredths a <? hundredths (a + 1 + Z.of_nat d))%float = true).
  { induction d as [|d IH]; intros Hd.
    - replace (a + 1 + Z.of_nat 0) with (a + 1) by lia. apply Step. lia.
    - apply (ltb_trans _ (hundredths (a + 1 + Z.of_nat d))).
      + apply IH. lia.
      + replace (a + 1 + Z.of_nat (S d)) with (a + 1 + Z.of_nat d + 1) by lia.
        apply Step. lia. }
  replace b with (a + 1 + Z.of_nat (Z.to_nat (b - a - 1))) by lia.
  apply G. lia.
Qed.

Lemma leb_refl (x : float) : is_nan x = false -> (x <=? x)%float = true.
Proof.
  intros N. destruct (not_nan_key x N) as (k & K).
  apply leb_key. exists k, k. repeat split; try assumption.
  unfold key_lt. lia.
Qed.

Lemma hundredths_le (a b : Z) :
  0 <= a -> a <= b -> b <= 65536 ->
  (hundredths a <=? hundredths b)%float = true.
Proof.
  intros Ha Hab Hb. destruct (Z.eq_dec a b) as [->|Hne].
  - destruct (Z.eq_dec b 65536) as [->|].
    + vm_compute. reflexivity.
    + apply leb_refl.
      apply (ltb_not_nan _ (hundredths (b + 1))). apply hundredths_lt; lia.
  - apply ltb_leb, hundredths_lt; lia.
Qed.

(** The whole number of hundredths a reading stands for. *)
Lemma reading_hundredths (isLbs : bool) (raw : Z) :
  0 <= raw < 65536 ->
  exists n : Z,
    weight (reading isLbs raw) = hundredths n
    /\ (if isLbs then n = raw else raw / 2 <= n <= (raw + 1) / 2).
Proof.
  intros H. destruct isLbs.
  - exists raw. split; [now apply reading_lbs | reflexivity].
  - destruct (reading_kg raw H) as [E|[_ E]].
    + exists (raw / 2). split; [exact E|]. Z.div_mod_to_equations. lia.
    + exists ((raw + 1) / 2). split; [exact E|]. Z.div_mod_to_equations. lia.
Qed.

Lemma reading_monotone (isLbs : bool) (raw1 raw2 : Z) :
  0 <= raw1 -> raw1 <= raw2 -> raw2 < 65536 ->
  (weight (reading isLbs raw1) <=? weight (reading isLbs raw2))%float = true.
Proof.
  intros H0 H12 H2.
  destruct (Z.eq_dec raw1 raw2) as [->|Hne].
  - apply leb_refl.
    apply (leb_not_nan_r 0). apply reading_sign. lia.
  - destruct (reading_hundredths isLbs raw1 ltac:(lia)) as (n1 & -> & B1).
    destruct (reading_hundredths isLbs raw2 ltac:(lia)) as (n2 & -> & B2).
    apply hundredths_le; destruct isLbs; subst; try lia;
      Z.div_mod_to_equations; lia.
Qed.

(** What a decoded frame is made of. *)
Lemma parseScaleData_decoded (data : DataView) (m : Measurement) :
  parseScaleData data = Normal (Some m) ->
  exists (flags : byte) (raw : Z),
    nth_error data 0%nat = Some flags
    /\ getUint16 data 1 true = Normal raw
    /\ 0 <= raw < 65536
    /\ m = reading (Z.testbit (byte_value flags) 0) raw.
Proof.
  intros H.
  destruct (parseScaleData_accepts data m H) as (flags & lo & hi & rest & ->).
  rewrite parseScaleData_cons3 in H.
  exists flags, (Z.lor (byte_value lo) (Z.shiftl (byte_value hi) 8)).
  split; [reflexivity|]. split; [apply getUint16_le_cons3|].
  split; [apply raw_range; apply byte_value_range | congruence].
Qed.

Lemma reading_unit (isLbs : bool) (raw : Z) :
  unit (reading isLbs raw) = "lbs"%string <-> isLbs = true.
Proof. destruct isLbs; simpl; split; congruence. Qed.

(** X1: [parseScaleData] raises on no frame; it returns a measurement for
    exactly the frames of three bytes or more, and [null] for the others. *)
Theorem parseScaleData_accepts_iff (data : DataView) :
  is_throw (parseScaleData data) = false
  /\ ((exists m, parseScaleData data = Normal (Some m)) <-> 3 <= byteLength data)
  /\ (parseScaleData data = Normal None <-> byteLength data < 3).
Proof.
  split; [apply parseScaleData_never_throws|].
  destruct (Z.ltb_spec (byteLength data) 3) as [Hlt|Hge].
  - pose proof (parseScaleData_short data Hlt) as E. rewrite E. split.
    + split; [intros (m & Hm); discriminate | lia].
    + split; [intros _; exact Hlt | reflexivity].
  - destruct data as [|a [|b [|c rest]]];
      try (unfold byteLength in Hge; simpl in Hge; lia).
    rewrite parseScaleData_cons3. split.
    + split; [intros _; exact Hge | intros _; eexists; reflexivity].
    + split; [discriminate | lia].
Qed.

(** X2: the decoder reads bit 0 of byte 0 and bytes 1 and 2, and nothing
    else: two frames that agree on these decode to the same measurement,
    whatever the other flag bits and the bytes after the third are. *)
Theorem parseScaleData_reads_three_fields
  (flags flags' lo hi : byte) (rest rest' : list byte) :
  Z.testbit (byte_value flags) 0 = Z.testbit (byte_value flags') 0 ->
  parseScaleData (flags :: lo :: hi :: rest)
  = parseScaleData (flags' :: lo :: hi :: rest').
Proof.
  intros H. rewrite !parseScaleData_cons3, H. reflexivity.
Qed.

Lemma parseScaleData_reads_three_fields_witness :
  Z.testbit (byte_value x00) 0 = Z.testbit (byte_value x06) 0
  /\ parseScaleData [x00; x58; x02]
     = parseScaleData [x06; x58; x02; xe5; x07; x0b; x02].
Proof.
  split; [reflexivity|].
  apply (parseScaleData_reads_three_fields x00 x06 x58 x02 []
           [xe5; x07; x0b; x02]).
  reflexivity.
Defined.

(** X3: among frames with the same unit, a larger raw value never decodes to
    a smaller weight; in pounds a larger raw value decodes to a strictly
    larger weight, so the raw value can be read back from the weight. *)
Theorem parseScaleData_monotone
  (data1 data2 : DataView) (m1 m2 : Measurement) (raw1 raw2 : Z) :
  parseScaleData data1 = Normal (Some m1) ->
  parseScaleData data2 = Normal (Some m2) ->
  getUint16 data1 1 true = Normal raw1 ->
  getUint16 data2 1 true = Normal raw2 ->
  unit m1 = unit m2 ->
  (raw1 <= raw2 -> (weight m1 <=? weight m2)%float = true)
  /\ (unit m1 = "lbs"%string -> raw1 < raw2 ->
      (weight m1 <? weight m2)%float = true).
Proof.
  intros P1 P2 R1 R2 U.
  destruct (parseScaleData_decoded data1 m1 P1) as (f1 & r1 & _ & R1' & B1 & ->).
  destruct (parseScaleData_decoded data2 m2 P2) as (f2 & r2 & _ & R2' & B2 & ->).
  assert (r1 = raw1) by congruence. assert (r2 = raw2) by congruence. subst.
  assert (F : Z.testbit (byte_value f1) 0 = Z.testbit (byte_value f2) 0).
  { destruct (Z.testbit (byte_value f1) 0), (Z.testbit (byte_value f2) 0);
      simpl in U; congruence. }
  rewrite <- F in *. split.
  - intros L. apply reading_monotone; lia.
  - intros Hu L. apply reading_unit in Hu. rewrite Hu.
    rewrite !reading_lbs by lia. apply hundredths_lt; lia.
Qed.

Lemma parseScaleData_monotone_witness :
  parseScaleData [x01; x58; x02] = Normal (Some (reading true 600))
  /\ parseScaleData [x01; x59; x02] = Normal (Some (reading true 601))
  /\ getUint16 [x01; x58; x02] 1 true = Normal 600
  /\ getUint16 [x01; x59; x02] 1 true = Normal 601
  /\ unit (reading true 600) = unit (reading true 601)
  /\ 600 <= 601
  /\ (weight (reading true 600) <=? weight (reading true 601))%float = true
  /\ unit (reading true 600) = "lbs"%string
  /\ 600 < 601
  /\ (weight (reading true 600) <? weight (reading true 601))%float = true.
Proof.
  pose proof (parseScaleData_monotone [x01; x58; x02] [x01; x59; x02]
                (reading true 600) (reading true 601) 600 601
                eq_refl eq_refl eq_refl eq_refl eq_refl) as [Hle Hlt].
  do 5 (split; [reflexivity|]). split; [lia|].
  split; [apply Hle; lia|]. split; [reflexivity|]. split; [lia|].
  apply Hlt; [reflexivity | lia].
Defined.

(** X4: a decoded weight is at most 655.35, and at most 327.68 when the unit
    is kilograms. *)
Theorem parseScaleData_weight_bounded (data : DataView) (m : Measurement) :
  parseScaleData data = Normal (Some m) ->
  (weight m <=? 655.35)%float = true
  /\ (unit m = "kg"%string -> (weight m <=? 327.68)%float = true).
Proof.
  intros P.
  destruct (parseScaleData_decoded data m P) as (f & raw & _ & _ & B & ->).
  destruct (reading_hundredths (Z.testbit (byte_value f) 0) raw B) as (n & E & Hn).
  rewrite E. split.
  - apply (leb_trans _ (hundredths 65535)); [|vm_compute; reflexivity].
    apply hundredths_le; destruct (Z.testbit (byte_value f) 0);
      try lia; Z.div_mod_to_equations; lia.
  - intros U. destruct (Z.testbit (byte_value f) 0); [discriminate U|].
    apply (leb_trans _ (hundredths 32768)); [|vm_compute; reflexivity].
    apply hundredths_le; Z.div_mod_to_equations; lia.
Qed.

Lemma parseScaleData_weight_bounded_witness :
  parseScaleData [x00; xff; xff] = Normal (Some (reading false 65535))
  /\ (weight (reading false 65535) <=? 655.35)%float = true
  /\ (unit (reading false 65535) = "kg"%string ->
      (weight (reading false 65535) <=? 327.68)%float = true).
Proof.
  split; [vm_compute; reflexivity|].
  apply (parseScaleData_weight_bounded [x00; xff; xff] (reading false 65535)).
  vm_compute. reflexivity.
Defined.

(** ** The listener and the subscription, beyond the claims *)

(** X5: the listener never raises; it calls [onData], once and with the
    decoded measurement, for exactly the frames of three bytes or more, and
    does nothing for a shorter frame. *)
Theorem onValueChanged_delivers_iff {A} (onData : Measurement -> A) (value : DataView) :
  (byteLength value < 3 /\ onValueChanged onData value = Normal None)
  \/ (3 <= byteLength value
      /\ exists m, parseScaleData value = Normal (Some m)
                   /\ onValueChanged onData value = Normal (Some (onData m))).
Proof.
  destruct (Z.ltb_spec (byteLength value) 3) as [Hlt|Hge].
  - left. split; [exact Hlt|]. now apply onValueChanged_drops_rejected.
  - right. split; [exact Hge|].
    destruct value as [|a [|b [|c rest]]];
      try (unfold byteLength in Hge; simpl in Hge; lia).
    eexists. split; [apply parseScaleData_cons3|].
    unfold onValueChanged. rewrite parseScaleData_cons3. reflexivity.
Qed.

(** X6: when the connection attempt is rejected, [subscribeToWeight] fails
    with that error after the single request connect, and leaves the link as
    it was. *)
Theorem subscribeToWeight_connect_fails {A}
  (device : Peripheral) (onData : Measurement -> A) (s : State A) (e : Error) :
  connect_answer device = Throw e ->
  exists s' : State A,
    subscribeToWeight device onData s = (Throw e, s')
    /\ calls s' = calls s ++ [Connect]
    /\ connected s' = connected s
    /\ notifying s' = notifying s
    /\ listeners s' = listeners s.
Proof.
  intros H. run_gatt. rewrite H. eexists. split; [reflexivity|].
  repeat split.
Qed.

Lemma subscribeToWeight_connect_fails_witness :
  connect_answer unreachable_scale = Throw (DOMException "NetworkError")
  /\ exists s' : State float,
      subscribeToWeight unreachable_scale weight initial
      = (Throw (DOMException "NetworkError"), s')
      /\ calls s' = calls (@initial float) ++ [Connect]
      /\ connected s' = connected (@initial float)
      /\ notifying s' = notifying (@initial float)
      /\ listeners s' = listeners (@initial float).
Proof.
  split; [reflexivity|].
  apply (subscribeToWeight_connect_fails unreachable_scale weight initial
           (DOMException "NetworkError")).
  reflexivity.
Defined.

(** X7: once the primary Weight Scale service has resolved, the fallback
    service is never requested: if the Weight Measurement characteristic then
    fails to resolve, [subscribeToWeight] fails with that error, even on a
    peripheral that exposes the complete fallback pair. *)
Theorem subscribeToWeight_no_fallback_after_primary {A}
  (device : Peripheral) (onData : Measurement -> A) (s : State A) :
  connect_answer device = Normal tt ->
  service_answer device WEIGHT_SCALE_SERVICE_UUID = Normal tt ->
  exists (r : completion (Teardown A)) (s' : State A) (new : list Call),
    subscribeToWeight device onData s = (r, s')
    /\ calls s' = calls s ++ new
    /\ ~ In (GetPrimaryService BODY_COMPOSITION_SERVICE_UUID) new
    /\ (forall c p, In c new -> characteristic_of c = Some p -> p = weight_scale_pair)
    /\ (forall e : Error,
        characteristic_answer device WEIGHT_SCALE_SERVICE_UUID
          WEIGHT_MEASUREMENT_CHAR_UUID = Throw e ->
        r = Throw e).
Proof.
  intros Hc Hs. unfold weight_scale_pair. run_gatt. rewrite Hc. run_gatt.
  rewrite Hs. run_gatt.
  destruct (characteristic_answer device 6173 10909); run_gatt;
    [destruct (notify_answer device 6173 10909)|];
    (do 3 eexists; split; [reflexivity|]; cbn [calls];
     split; [rewrite <- !app_assoc; reflexivity|];
     split; [simpl; intuition discriminate|];
     split; [settle_calls|];
     intros e' E; congruence).
Qed.

Lemma subscribeToWeight_no_fallback_after_primary_witness :
  connect_answer scale_without_weight_measurement = Normal tt
  /\ service_answer scale_without_weight_measurement WEIGHT_SCALE_SERVICE_UUID
     = Normal tt
  /\ service_answer scale_without_weight_measurement BODY_COMPOSITION_SERVICE_UUID
     = Normal tt
  /\ characteristic_answer scale_without_weight_measurement
       BODY_COMPOSITION_SERVICE_UUID BODY_COMP_MEASUREMENT_CHAR_UUID = Normal tt
  /\ characteristic_answer scale_without_weight_measurement
       WEIGHT_SCALE_SERVICE_UUID WEIGHT_MEASUREMENT_CHAR_UUID
     = Throw (DOMException "NotFoundError")
  /\ fst (subscribeToWeight scale_without_weight_measurement weight initial)
     = Throw (DOMException "NotFoundError").
Proof.
  do 5 (split; [reflexivity|]).
  destruct (subscribeToWeight_no_fallback_after_primary
              scale_without_weight_measurement weight initial eq_refl eq_refl)
    as (r & s' & new & Hrun & _ & _ & _ & Hfail).
  rewrite Hrun. cbn [fst]. apply Hfail. reflexivity.
Defined.

(** X8: no failure path cleans up.  Whenever [subscribeToWeight] fails after
    the connection was opened, the connection is still open, no disconnect
    and no stopNotifications was requested, and no notification stream or
    listener was added. *)
Theorem subscribeToWeight_failure_leaves_link_open {A}
  (device : Peripheral) (onData : Measurement -> A) (s s' : State A) (e : Error) :
  connect_answer device = Normal tt ->
  subscribeToWeight device onData s = (Throw e, s') ->
  connected s' = true
  /\ notifying s' = notifying s
  /\ listeners s' = listeners s
  /\ exists new : list Call,
      calls s' = calls s ++ new
      /\ ~ In Disconnect new
      /\ (forall sv ch, ~ In (StopNotifications sv ch) new).
Proof.
  intros Hc. run_gatt. rewrite Hc. run_gatt.
  destruct (service_answer device 6173); run_gatt.
  - destruct (characteristic_answer device 6173 10909); run_gatt;
      [destruct (notify_answer device 6173 10909); [discriminate|]|];
      (intros H; injection H as <- <-; cbn [connected notifying listeners calls];
       do 3 (split; [reflexivity|]);
       eexists; split; [rewrite <- !app_assoc; reflexivity|];
       split; [simpl; intuition discriminate|];
       intros sv ch; simpl; intuition discriminate).
  - destruct (service_answer device 6171); run_gatt;
      [destruct (characteristic_answer device 6171 10908); run_gatt;
       [destruct (notify_answer device 6171 10908); [discriminate|]|]|];
      (intros H; injection H as <- <-; cbn [connected notifying listeners calls];
       do 3 (split; [reflexivity|]);
       eexists; split; [rewrite <- !app_assoc; reflexivity|];
       split; [simpl; intuition discriminate|];
       intros sv ch; simpl; intuition discriminate).
Qed.

Lemma subscribeToWeight_failure_leaves_link_open_witness :
  let s' : State float :=
    {| connected := true; notifying := []; listeners := [];
       calls := [Connect; GetPrimaryService 0x181d;
                 GetCharacteristic 0x181d 0x2a9d;
                 StartNotifications 0x181d 0x2a9d] |} in
  connect_answer scale_refusing_notifications = Normal tt
  /\ subscribeToWeight scale_refusing_notifications weight initial
     = (Throw (DOMException "NotSupportedError"), s')
  /\ connected s' = true
  /\ notifying s' = notifying (@initial float)
  /\ listeners s' = listeners (@initial float)
  /\ exists new : list Call,
      calls s' = calls (@initial float) ++ new
      /\ ~ In Disconnect new
      /\ (forall sv ch, ~ In (StopNotifications sv ch) new).
Proof.
  intros s'. split; [reflexivity|]. split; [reflexivity|].
  apply (subscribeToWeight_failure_leaves_link_open scale_refusing_notifications
           weight initial s' (DOMException "NotSupportedError"));
    reflexivity.
Defined.

(** X9: the peripherals [subscribeToWeight] succeeds on.  It hands back a
    teardown exactly when the connection opens and either the primary service,
    its characteristic 0x2A9D and notifications on it all resolve, or the
    primary service fails while the fallback service, its characteristic
    0x2A9C and notifications on it all resolve. *)
Theorem subscribeToWeight_succeeds_iff {A}
  (device : Peripheral) (onData : Measurement -> A) (s : State A) :
  (exists (cleanup : Teardown A) (s' : State A),
      subscribeToWeight device onData s = (Normal cleanup, s'))
  <-> connect_answer device = Normal tt
      /\ ((service_answer device WEIGHT_SCALE_SERVICE_UUID = Normal tt
           /\ characteristic_answer device WEIGHT_SCALE_SERVICE_UUID
                WEIGHT_MEASUREMENT_CHAR_UUID = Normal tt
           /\ notify_answer device WEIGHT_SCALE_SERVICE_UUID
                WEIGHT_MEASUREMENT_CHAR_UUID = Normal tt)
          \/ (is_throw (service_answer device WEIGHT_SCALE_SERVICE_UUID) = true
              /\ service_answer device BODY_COMPOSITION_SERVICE_UUID = Normal tt
              /\ characteristic_answer device BODY_COMPOSITION_SERVICE_UUID
                   BODY_COMP_MEASUREMENT_CHAR_UUID = Normal tt
              /\ notify_answer device BODY_COMPOSITION_SERVICE_UUID
                   BODY_COMP_MEASUREMENT_CHAR_UUID = Normal tt)).
Proof.
  run_gatt.
  destruct (connect_answer device) as [[]|]; run_gatt;
    [|split; [intros (? & ? & ?); discriminate | intros [? _]; discriminate]].
  destruct (service_answer device 6173) as [[]|]; run_gatt.
  - destruct (characteristic_answer device 6173 10909) as [[]|]; run_gatt;
      [destruct (notify_answer device 6173 10909) as [[]|]|].
    + split; [intros _|intros _; do 2 eexists; reflexivity].
      split; [reflexivity|]. left. now repeat split.
    + split; [intros (? & ? & ?); discriminate|].
      intros [_ [(_ & _ & ?)|(? & _)]]; discriminate.
    + split; [intros (? & ? & ?); discriminate|].
      intros [_ [(_ & ? & _)|(? & _)]]; discriminate.
  - destruct (service_answer device 6171) as [[]|]; run_gatt;
      [destruct (characteristic_answer device 6171 10908) as [[]|]; run_gatt;
       [destruct (notify_answer device 6171 10908) as [[]|]|]|].
    + split; [intros _|intros _; do 2 eexists; reflexivity].
      split; [reflexivity|]. right. now repeat split.
    + split; [intros (? & ? & ?); discriminate|].
      intros [_ [(? & _)|(_ & _ & _ & ?)]]; discriminate.
    + split; [intros (? & ? & ?); discriminate|].
      intros [_ [(? & _)|(_ & _ & ? & _)]]; discriminate.
    + split; [intros (? & ? & ?); discriminate|].
      intros [_ [(? & _)|(_ & ? & _)]]; discriminate.
Qed.

Lemma pair_eqb_refl (p : Z * Z) : pair_eqb p p = true.
Proof. unfold pair_eqb. now rewrite !Z.eqb_refl. Qed.

(** X10: from subscription to teardown.  After a successful subscription on
    a link without listeners, a notification on the bound characteristic
    reaches the listener exactly once, a notification on another
    characteristic reaches nobody, and once the teardown has run no
    notification reaches anybody. *)
Theorem subscribeToWeight_delivery {A}
  (device : Peripheral) (onData : Measurement -> A) (s s' : State A)
  (cleanup : Teardown A) :
  listeners s = [] ->
  subscribeToWeight device onData s = (Normal cleanup, s') ->
  exists p : Z * Z,
    (p = weight_scale_pair \/ p = body_composition_pair)
    /\ (forall value, notify p value s' = [onValueChanged onData value])
    /\ (forall q value, pair_eqb q p = false -> notify q value s' = [])
    /\ (forall q value (t : State A), notify q value (snd (cleanup t)) = []).
Proof.
  intros Hl H.
  destruct (subscribeToWeight_returns device onData s s' cleanup H)
    as (c & -> & Hp & Hc & Hn & Hls).
  exists (identity c). split; [exact Hp|].
  rewrite Hl in Hls. cbn [app] in Hls.
  split; [|split].
  - intros value. unfold notify. rewrite Hc, Hn, Hls.
    cbn [existsb filter fst snd map andb]. rewrite pair_eqb_refl. reflexivity.
  - intros q value Hq. unfold notify. rewrite Hls.
    cbn [filter fst]. assert (E : pair_eqb (identity c) q = false).
    { unfold pair_eqb in *. rewrite (Z.eqb_sym (fst (identity c))),
        (Z.eqb_sym (snd (identity c))). exact Hq. }
    rewrite E. cbn [map]. now destruct (_ && _).
  - intros q value t. rewrite teardown_run. reflexivity.
Qed.

Lemma subscribeToWeight_delivery_witness :
  let cleanup : Teardown float :=
    teardown (weight_scale_characteristic mi_scale_2)
      {| server_device := mi_scale_2 |} in
  let s' : State float :=
    snd (subscribeToWeight mi_scale_2 weight initial) in
  listeners (@initial float) = []
  /\ subscribeToWeight mi_scale_2 weight initial = (Normal cleanup, s')
  /\ exists p : Z * Z,
      (p = weight_scale_pair \/ p = body_composition_pair)
      /\ (forall value, notify p value s' = [onValueChanged weight value])
      /\ (forall q value, pair_eqb q p = false -> notify q value s' = [])
      /\ (forall q value (t : State float), notify q value (snd (cleanup t)) = []).
Proof.
  intros cleanup s'. split; [reflexivity|]. split; [reflexivity|].
  apply (subscribeToWeight_delivery mi_scale_2 weight initial s' cleanup);
    reflexivity.
Defined.

(** ** The metric helpers, beyond the claims *)

Lemma ltb_true_cases (x : float) :
  ((x <? 18.5)%float = true -> (x <? 25)%float = true)
  /\ ((x <? 25)%float = true -> (x <? 30)%float = true).
Proof.
  split; intros H.
  - apply (ltb_trans x 18.5 25 H). reflexivity.
  - apply (ltb_trans x 25 30 H). reflexivity.
Qed.

(** [c <= x] says that [x] is a number and not below [c]. *)
Lemma leb_iff_not_ltb (c x : float) :
  is_nan c = false ->
  (c <=? x)%float = true <-> (x <? c)%float = false /\ is_nan x = false.
Proof.
  intros Nc. split.
  - intros H. split.
    + apply (leb_leb_not_ltb c c x); [now apply leb_refl | exact H].
    + exact (leb_not_nan_r c x H).
  - intros [H N]. now apply not_ltb_leb.
Qed.

(** X11: the category never goes down when the index goes up. *)
Theorem getBMICategory_monotone (x y : float) :
  (x <=? y)%float = true ->
  category_rank (getBMICategory (Num x)) <= category_rank (getBMICategory (Num y)).
Proof.
  intros H. unfold getBMICategory; cbn [ToNumber].
  destruct (ltb_true_cases x) as [X1 X2].
  destruct (y <? 18.5)%float eqn:A.
  { rewrite (leb_ltb_trans x y 18.5 H A). vm_compute. discriminate. }
  destruct (y <? 25)%float eqn:B.
  { pose proof (leb_ltb_trans x y 25 H B) as Bx. rewrite Bx.
    destruct (x <? 18.5)%float; vm_compute; discriminate. }
  destruct (y <? 30)%float eqn:C.
  { pose proof (leb_ltb_trans x y 30 H C) as Cx. rewrite Cx.
    destruct (x <? 18.5)%float; [vm_compute; discriminate|].
    destruct (x <? 25)%float; vm_compute; discriminate. }
  destruct (x <? 18.5)%float; [vm_compute; discriminate|].
  destruct (x <? 25)%float; [vm_compute; discriminate|].
  destruct (x <? 30)%float; vm_compute; discriminate.
Qed.

Lemma getBMICategory_monotone_witness :
  (24.9 <=? 25)%float = true
  /\ category_rank (getBMICategory (Num 24.9))
     <= category_rank (getBMICategory (Num 25)).
Proof.
  split; [reflexivity|]. apply (getBMICategory_monotone 24.9 25). reflexivity.
Defined.

(** X12: the category read backwards.  An input is "Podváha" exactly when
    its number is below 18.5, "Normálna" exactly from 18.5 and below 25,
    "Nadváha" exactly from 25 and below 30, and "Obezita" exactly when it is
    30 or more or not a number at all (NaN, [undefined]). *)
Theorem getBMICategory_inverse (bmi : Value) :
  (getBMICategory bmi = Podvaha <-> (ToNumber bmi <? 18.5)%float = true)
  /\ (getBMICategory bmi = Normalna
      <-> (18.5 <=? ToNumber bmi)%float = true /\ (ToNumber bmi <? 25)%float = true)
  /\ (getBMICategory bmi = Nadvaha
      <-> (25 <=? ToNumber bmi)%float = true /\ (ToNumber bmi <? 30)%float = true)
  /\ (getBMICategory bmi = Obezita
      <-> (30 <=? ToNumber bmi)%float = true \/ is_nan (ToNumber bmi) = true).
Proof.
  unfold getBMICategory. set (x := ToNumber bmi).
  destruct (ltb_true_cases x) as [X1 X2].
  rewrite (leb_iff_not_ltb 18.5 x eq_refl), (leb_iff_not_ltb 25 x eq_refl),
    (leb_iff_not_ltb 30 x eq_refl).
  assert (N1 : (x <? 18.5)%float = true -> is_nan x = false)
    by apply ltb_not_nan.
  assert (N2 : (x <? 25)%float = true -> is_nan x = false)
    by apply ltb_not_nan.
  assert (N3 : (x <? 30)%float = true -> is_nan x = false)
    by apply ltb_not_nan.
  destruct (x <? 18.5)%float eqn:A; destruct (x <? 25)%float eqn:B;
    destruct (x <? 30)%float eqn:C; destruct (is_nan x) eqn:N;
    try (specialize (X1 eq_refl); discriminate);
    try (specialize (X2 eq_refl); discriminate);
    try (specialize (N1 eq_refl); discriminate);
    try (specialize (N2 eq_refl); discriminate);
    try (specialize (N3 eq_refl); discriminate);
    repeat split; try discriminate; try reflexivity;
    try (intros [? ?]; discriminate);
    try (intros [[? ?] ?]; discriminate);
    try (intros [[? ?]|?]; discriminate);
    try (intros _; left; now split);
    try (intros _; now right).
Qed.

(** The sign of a number moves through a division and out of a square. *)
Lemma binary_round_aux_opp (s : bool) (m e : Z) (l : location) :
  binary_round_aux prec emax (negb s) m e l
  = SFopp (binary_round_aux prec emax s m e l).
Proof.
  unfold binary_round_aux.
  destruct (shr_fexp prec emax m e l) as [mrs e'].
  destruct (shr_fexp prec emax _ e' loc_Exact) as [mrs' e''].
  destruct (shr_m mrs'); try reflexivity.
  destruct (e'' <=? emax - prec); reflexivity.
Qed.

Lemma SFdiv_opp_l (x y : spec_float) :
  SFdiv prec emax (SFopp x) y = SFopp (SFdiv prec emax x y).
Proof.
  destruct x as [sx|sx| |sx mx ex], y as [sy|sy| |sy my ey];
    try reflexivity; try (destruct sx, sy; reflexivity).
  cbn [SFopp SFdiv].
  destruct (SFdiv_core_binary prec emax (Z.pos mx) ex (Z.pos my) ey) as [[mz ez] lz].
  rewrite <- binary_round_aux_opp. destruct sx, sy; reflexivity.
Qed.

Lemma SFmul_opp_opp (x : spec_float) :
  SFmul prec emax (SFopp x) (SFopp x) = SFmul prec emax x x.
Proof.
  destruct x as [s|s| |s m e]; try reflexivity; destruct s; reflexivity.
Qed.

Lemma square_of_opposite_height (h : float) :
  ((- h / 100) * (- h / 100) = (h / 100) * (h / 100))%float.
Proof.
  apply Prim2SF_inj.
  rewrite !mul_spec, !div_spec, opp_spec. unfold SF64mul, SF64div.
  rewrite SFdiv_opp_l. apply SFmul_opp_opp.
Qed.

Lemma number_key_opp_none (x : spec_float) :
  number_key (SFopp x) = None <-> number_key x = None.
Proof. destruct x as [s|s| |s m e]; simpl; try destruct s; split; congruence. Qed.

Lemma is_nan_opp (h : float) : is_nan (- h) = is_nan h.
Proof.
  destruct (is_nan h) eqn:N.
  - apply is_nan_key. rewrite opp_spec. apply number_key_opp_none.
    now apply is_nan_key.
  - destruct (is_nan (- h)) eqn:N'; [|reflexivity].
    apply is_nan_key in N'. rewrite opp_spec in N'.
    apply number_key_opp_none, is_nan_key in N'. congruence.
Qed.

Lemma is_zero_opp (h : float) : is_zero (- h) = is_zero h.
Proof.
  unfold is_zero. rewrite !eqb_spec, opp_spec.
  change (Prim2SF zero) with (S754_zero false).
  destruct (Prim2SF h) as [s|s| |s m e]; try reflexivity; destruct s; reflexivity.
Qed.

(** X13: [calculateBMI] ignores the sign of the height: a negative height
    passes the guard and gives the index of its absolute value. *)
Theorem calculateBMI_height_sign (weight : Value) (h : float) :
  calculateBMI weight (Num (- h)) = calculateBMI weight (Num h).
Proof.
  unfold calculateBMI; cbn [ToBoolean ToNumber].
  rewrite is_nan_opp, is_zero_opp, square_of_opposite_height. reflexivity.
Qed.

Lemma positive_truthy (w : float) :
  (0 <? w)%float = true -> ToBoolean (Num w) = true.
Proof.
  intros H. cbn [ToBoolean]. apply negb_true_iff, orb_false_iff. split.
  - unfold is_zero. destruct (w =? zero)%float eqn:E; [|reflexivity].
    apply eqb_key in E as (kw & k0 & Kw & K0 & L1 & L2).
    apply ltb_key in H as (k0' & kw' & K0' & Kw' & L).
    change 0%float with zero in K0'.
    assert (k0' = k0) by congruence. assert (kw' = kw) by congruence. subst.
    contradiction.
  - apply ltb_key in H as (k0 & kw & _ & Kw & _).
    destruct (is_nan w) eqn:N; [|reflexivity].
    apply is_nan_key in N. congruence.
Qed.

(** X14: from the decoder to the index.  A frame whose raw value is 0 is
    decoded to a weight that [calculateBMI] takes for unknown: the index is 0
    for every height, and its category is "Podváha".  A frame with any other
    raw value is decoded to a weight that passes the guard. *)
Theorem zero_reading_is_unknown (data : DataView) (m : Measurement) :
  parseScaleData data = Normal (Some m) ->
  (getUint16 data 1 true = Normal 0 ->
   forall height : Value,
     calculateBMI (Num (weight m)) height = 0%float
     /\ getBMICategory (Num (calculateBMI (Num (weight m)) height)) = Podvaha)
  /\ (getUint16 data 1 true <> Normal 0 -> ToBoolean (Num (weight m)) = true).
Proof.
  intros P.
  destruct (parseScaleData_decoded data m P) as (f & raw & _ & R & B & ->).
  rewrite R. split.
  - intros E height. assert (raw = 0) by congruence. subst raw.
    assert (W : weight (reading (Z.testbit (byte_value f) 0) 0) = 0%float)
      by (destruct (Z.testbit (byte_value f) 0); vm_compute; reflexivity).
    assert (U : calculateBMI (Num 0) height = 0%float)
      by (apply calculateBMI_falsy; left; reflexivity).
    rewrite W, U. split; reflexivity.
  - intros Hne. apply positive_truthy.
    destruct (reading_sign (Z.testbit (byte_value f) 0) raw B) as [_ ->].
    apply negb_true_iff, Z.eqb_neq. congruence.
Qed.

Lemma zero_reading_is_unknown_witness :
  parseScaleData [x01; x00; x00; x2a] = Normal (Some (reading true 0))
  /\ getUint16 [x01; x00; x00; x2a] 1 true = Normal 0
  /\ calculateBMI (Num (weight (reading true 0))) (Num 180) = 0%float
  /\ getBMICategory (Num (calculateBMI (Num (weight (reading true 0))) (Num 180)))
     = Podvaha
  /\ parseScaleData [x00; xdc; x01] = Normal (Some (reading false 476))
  /\ getUint16 [x00; xdc; x01] 1 true <> Normal 0
  /\ ToBoolean (Num (weight (reading false 476))) = true.
Proof.
  split; [vm_compute; reflexivity|]. split; [reflexivity|].
  pose proof (proj1 (zero_reading_is_unknown [x01; x00; x00; x2a] (reading true 0)
                       eq_refl) eq_refl (Num 180)) as [H1 H2].
  split; [exact H1|]. split; [exact H2|].
  split; [vm_compute; reflexivity|].
  assert (Hne : getUint16 [x00; xdc; x01] 1 true <> Normal 0)
    by (vm_compute; discriminate).
  split; [exact Hne|].
  exact (proj2 (zero_reading_is_unknown [x00; xdc; x01] (reading false 476)
                  eq_refl) Hne).
Defined.

(** ** The record store *)

Lemma newer_spec (a b : Db.MeasurementRecord) :
  Db.newer a b = true <-> listed_before a b.
Proof.
  unfold Db.newer, listed_before.
  rewrite orb_true_iff, andb_true_iff, Z.ltb_lt, Z.eqb_eq, Z.leb_le. tauto.
Qed.

Lemma newer_false (a b : Db.MeasurementRecord) :
  Db.newer a b = false -> listed_before b a.
Proof.
  intros H. destruct (Db.newer b a) eqn:E; [now apply newer_spec|].
  unfold Db.newer in *.
  apply orb_false_iff in H as [H1 H2]. apply orb_false_iff in E as [E1 E2].
  apply Z.ltb_ge in H1. apply Z.ltb_ge in E1.
  apply andb_false_iff in H2. apply andb_false_iff in E2.
  rewrite !Z.eqb_neq, !Z.leb_gt in *. lia.
Qed.

Lemma listed_before_trans (a b c : Db.MeasurementRecord) :
  listed_before a b -> listed_before b c -> listed_before a c.
Proof. unfold listed_before. lia. Qed.

Lemma insert_perm (x : Db.MeasurementRecord) (l : list Db.MeasurementRecord) :
  Permutation (Db.insert x l) (x :: l).
Proof.
  induction l as [|y l IH]; simpl; [reflexivity|].
  destruct (Db.newer x y); [reflexivity|].
  rewrite IH. apply perm_swap.
Qed.

Lemma newest_first_perm (l : list Db.MeasurementRecord) :
  Permutation (Db.newest_first l) l.
Proof.
  induction l as [|y l IH]; simpl; [reflexivity|].
  rewrite insert_perm. now constructor.
Qed.

Lemma insert_sorted (x : Db.MeasurementRecord) (l : list Db.MeasurementRecord) :
  StronglySorted listed_before l -> StronglySorted listed_before (Db.insert x l).
Proof.
  induction 1 as [|y l Hl IH Hy]; simpl.
  - constructor; constructor.
  - destruct (Db.newer x y) eqn:E.
    + apply newer_spec in E. constructor; [now constructor|].
      constructor; [exact E|].
      eapply Forall_impl; [|exact Hy]. intros z Hz.
      now apply (listed_before_trans x y z).
    + apply newer_false in E. constructor; [exact IH|].
      apply Forall_forall. intros z Hz.
      apply (Permutation_in _ (insert_perm x l)) in Hz.
      destruct Hz as [<-|Hz]; [exact E|].
      now apply (proj1 (Forall_forall _ _) Hy).
Qed.

Lemma newest_first_sorted (l : list Db.MeasurementRecord) :
  StronglySorted listed_before (Db.newest_first l).
Proof.
  induction l as [|y l IH]; simpl; [constructor | now apply insert_sorted].
Qed.

Lemma in_firstn {A} (x : A) (n : nat) (l : list A) :
  In x (firstn n l) -> In x l.
Proof.
  revert n. induction l as [|y l IH]; intros [|n]; simpl; try tauto.
  intros [->|H]; [now left | right; now apply (IH n)].
Qed.

Lemma firstn_sorted {A} (R : A -> A -> Prop) (n : nat) (l : list A) :
  StronglySorted R l -> StronglySorted R (firstn n l).
Proof.
  intros H. revert n. induction H as [|y l Hl IH Hy]; intros [|n]; simpl;
    try constructor.
  - apply IH.
  - apply Forall_forall. intros z Hz. apply in_firstn in Hz.
    now apply (proj1 (Forall_forall _ _) Hy).
Qed.

(** X15: [getMeasurements] returns stored records only, as many as the
    limit allows (100 without a limit), newest first, records of the same
    date by decreasing key; a smaller limit gives the beginning of the list a
    larger one gives, and a limit that covers the table gives every record. *)
Theorem getMeasurements_window (limit : option nat) (db : Db.Store) :
  List.length (Db.getMeasurements limit db)
  = Nat.min (limit_of limit) (List.length (Db.measurements db))
  /\ StronglySorted listed_before (Db.getMeasurements limit db)
  /\ incl (Db.getMeasurements limit db) (Db.measurements db)
  /\ (forall n : nat, (n <= limit_of limit)%nat ->
      Db.getMeasurements (Some n) db = firstn n (Db.getMeasurements limit db))
  /\ ((List.length (Db.measurements db) <= limit_of limit)%nat ->
      Permutation (Db.getMeasurements limit db) (Db.measurements db)).
Proof.
  unfold Db.getMeasurements. fold (limit_of limit).
  pose proof (newest_first_perm (Db.measurements db)) as P.
  split; [|split; [|split; [|split]]].
  - rewrite length_firstn, (Permutation_length P). reflexivity.
  - apply firstn_sorted, newest_first_sorted.
  - intros r Hr. apply in_firstn in Hr. now apply (Permutation_in _ P).
  - intros n Hn. cbn [limit_of]. rewrite firstn_firstn.
    now rewrite Nat.min_l.
  - intros Hlen. rewrite firstn_all2; [exact P|].
    now rewrite (Permutation_length P).
Qed.

Lemma insert_first (x : Db.MeasurementRecord) (l : list Db.MeasurementRecord) :
  (forall z, In z l -> listed_before x z) -> Db.insert x l = x :: l.
Proof.
  destruct l as [|y l]; [reflexivity|]. intros H. simpl.
  now rewrite (proj2 (newer_spec x y) (H y (or_introl eq_refl))).
Qed.

Lemma newest_first_latest (x : Db.MeasurementRecord) (l : list Db.MeasurementRecord) :
  (forall y, In y l -> Db.createdAt y <= Db.createdAt x /\ Db.id y < Db.id x) ->
  Db.newest_first (l ++ [x]) = x :: Db.newest_first l.
Proof.
  intros H. unfold Db.newest_first. rewrite fold_right_app. cbn [fold_right Db.insert].
  induction l as [|y l IH]; [reflexivity|].
  cbn [fold_right]. rewrite IH by (intros z Hz; apply H; now right).
  cbn [Db.insert].
  destruct (Db.newer y x) eqn:E; [|reflexivity].
  apply newer_spec in E. destruct (H y (or_introl eq_refl)).
  unfold listed_before in E. lia.
Qed.

Lemma key_is_free (db : Db.Store) :
  Db.well_keyed db ->
  existsb (fun r => Db.id r =? Db.nextMeasurementKey db) (Db.measurements db) = false.
Proof.
  intros [_ H]. destruct (existsb _ _) eqn:E; [|reflexivity].
  apply existsb_exists in E as (r & Hr & Hk). apply Z.eqb_eq in Hk.
  specialize (H r Hr). lia.
Qed.

(** X16: a measurement added without a key, at a date no stored record is
    later than, is stored under the next key with that date, whatever date
    the caller put in the object, and it heads the list [getMeasurements]
    gives afterwards, followed by the list it gave before. *)
Theorem addMeasurement_then_getMeasurements
  (now : Z) (measurement : Db.NewMeasurement) (db : Db.Store) (n : nat) :
  Db.well_keyed db ->
  (forall r, In r (Db.measurements db) -> Db.createdAt r <= now) ->
  Db.new_id measurement = None ->
  exists db' : Db.Store,
    Db.addMeasurement now measurement db = (Normal (Db.nextMeasurementKey db), db')
    /\ Db.getMeasurements (Some (S n)) db'
       = {| Db.id := Db.nextMeasurementKey db;
            Db.userId := Db.new_userId measurement;
            Db.weight := Db.new_weight measurement;
            Db.bmi := Db.new_bmi measurement;
            Db.createdAt := now |}
         :: Db.getMeasurements (Some n) db.
Proof.
  intros W Hnow Hid. unfold Db.addMeasurement. rewrite Hid, (key_is_free db W).
  eexists. split; [reflexivity|].
  unfold Db.getMeasurements; cbn [Db.measurements].
  rewrite newest_first_latest; [reflexivity|].
  intros y Hy. cbn [Db.createdAt Db.id]. split; [now apply Hnow | now apply W].
Qed.

Lemma two_measurements_well_keyed : Db.well_keyed two_measurements.
Proof.
  split.
  - vm_compute. repeat constructor; simpl; intuition discriminate.
  - intros r [<-|[<-|[]]]; vm_compute; reflexivity.
Qed.

Lemma addMeasurement_then_getMeasurements_witness :
  Db.well_keyed two_measurements
  /\ (forall r, In r (Db.measurements two_measurements) -> Db.createdAt r <= 3000)
  /\ Db.new_id a_measurement = None
  /\ exists db' : Db.Store,
      Db.addMeasurement 3000 a_measurement two_measurements = (Normal 3, db')
      /\ Db.getMeasurements (Some 10%nat) db'
         = {| Db.id := 3; Db.userId := Some 1; Db.weight := 70; Db.bmi := 22.9;
              Db.createdAt := 3000 |}
           :: Db.getMeasurements (Some 9%nat) two_measurements.
Proof.
  assert (Hnow : forall r, In r (Db.measurements two_measurements) ->
                           Db.createdAt r <= 3000).
  { intros r [<-|[<-|[]]]; vm_compute; discriminate. }
  split; [exact two_measurements_well_keyed|]. split; [exact Hnow|].
  split; [reflexivity|].
  exact (addMeasurement_then_getMeasurements 3000 a_measurement two_measurements 9
           two_measurements_well_keyed Hnow eq_refl).
Defined.

Lemma filter_insert (p : Db.MeasurementRecord -> bool) (x : Db.MeasurementRecord)
  (l : list Db.MeasurementRecord) :
  StronglySorted listed_before l ->
  filter p (Db.insert x l)
  = if p x then Db.insert x (filter p l) else filter p l.
Proof.
  induction 1 as [|y l Hl IH Hy]; cbn [Db.insert filter].
  - destruct (p x); reflexivity.
  - destruct (Db.newer x y) eqn:E; cbn [filter].
    + destruct (p x); [|reflexivity].
      destruct (p y); cbn [Db.insert]; [now rewrite E|].
      symmetry. apply insert_first. intros z Hz.
      apply filter_In in Hz as [Hz _].
      apply (listed_before_trans x y z); [now apply newer_spec|].
      now apply (proj1 (Forall_forall _ _) Hy).
    + rewrite IH. destruct (p x), (p y); cbn [Db.insert]; try reflexivity.
      now rewrite E.
Qed.

Lemma newest_first_filter (p : Db.MeasurementRecord -> bool)
  (l : list Db.MeasurementRecord) :
  Db.newest_first (filter p l) = filter p (Db.newest_first l).
Proof.
  induction l as [|y l IH]; [reflexivity|].
  cbn [filter Db.newest_first fold_right].
  fold (Db.newest_first l).
  rewrite filter_insert by apply newest_first_sorted.
  destruct (p y); [|exact IH].
  cbn [fold_right]. fold (Db.newest_first (filter p l)). now rewrite IH.
Qed.

Lemma filter_all {A} (p : A -> bool) (l : list A) :
  (forall x, In x l -> p x = true) -> filter p l = l.
Proof.
  induction l as [|y l IH]; [reflexivity|]. intros H. simpl.
  rewrite (H y (or_introl eq_refl)), IH; [reflexivity|].
  intros x Hx. apply H. now right.
Qed.

Lemma filter_filter_same {A} (p : A -> bool) (l : list A) :
  filter p (filter p l) = filter p l.
Proof.
  apply filter_all. intros x Hx. now apply filter_In in Hx.
Qed.

(** X17: after [deleteMeasurement], [getMeasurements] gives the list it gave
    before with the deleted record left out (and the next older record moving
    into the window); no record with the deleted key is listed; deleting a key
    that is not stored changes nothing, and so does deleting a second time. *)
Theorem deleteMeasurement_then_getMeasurements
  (key : Z) (limit : option nat) (db : Db.Store) :
  Db.getMeasurements limit (Db.deleteMeasurement key db)
  = firstn (limit_of limit)
      (filter (fun r => negb (Db.id r =? key))
         (Db.newest_first (Db.measurements db)))
  /\ (forall r, In r (Db.getMeasurements limit (Db.deleteMeasurement key db)) ->
      Db.id r <> key /\ In r (Db.measurements db))
  /\ ((forall r, In r (Db.measurements db) -> Db.id r <> key) ->
      Db.deleteMeasurement key db = db)
  /\ Db.deleteMeasurement key (Db.deleteMeasurement key db)
     = Db.deleteMeasurement key db.
Proof.
  assert (E : Db.getMeasurements limit (Db.deleteMeasurement key db)
              = firstn (limit_of limit)
                  (filter (fun r => negb (Db.id r =? key))
                     (Db.newest_first (Db.measurements db)))).
  { unfold Db.getMeasurements, Db.deleteMeasurement; cbn [Db.measurements].
    fold (limit_of limit). now rewrite newest_first_filter. }
  split; [exact E|]. split; [|split].
  - intros r Hr. rewrite E in Hr. apply in_firstn, filter_In in Hr as [Hin Hk].
    split.
    + apply negb_true_iff, Z.eqb_neq in Hk. exact Hk.
    + now apply (Permutation_in _ (newest_first_perm (Db.measurements db))).
  - intros H. destruct db as [us uk ms mk]. unfold Db.deleteMeasurement.
    cbn [Db.users Db.nextUserKey Db.measurements Db.nextMeasurementKey] in *.
    rewrite filter_all; [reflexivity|].
    intros r Hr. apply negb_true_iff, Z.eqb_neq. now apply H.
  - unfold Db.deleteMeasurement.
    cbn [Db.users Db.nextUserKey Db.measurements Db.nextMeasurementKey].
    now rewrite filter_filter_same.
Qed.

Lemma keys_of_kept_rows {Row Key} (key : Row -> Key) (keep : Row -> bool) :
  forall rows : list Row,
    NoDup (map key rows) -> NoDup (map key (filter keep rows)).
Proof.
  intros rows. induction rows as [|y rows IH]; [trivial|].
  cbn [map filter]. intros H.
  inversion H as [|? ? Hn Hd]; subst.
  destruct (keep y); [|now apply IH]. cbn [map]. constructor; [|now apply IH].
  intros Hin. apply Hn. apply in_map_iff in Hin as (z & Hz & Hin).
  apply filter_In in Hin as [Hin _]. apply in_map_iff. now exists z.
Qed.

(** X18: the keys of stored measurements stay pairwise distinct and below
    the key generator: this holds of the empty database, and every
    [addMeasurement], with or without a key of the caller's, accepted or
    rejected, and every [deleteMeasurement] keeps it. *)
Theorem measurement_keys_invariant :
  Db.well_keyed Db.empty
  /\ (forall now measurement db,
        Db.well_keyed db ->
        Db.well_keyed (snd (Db.addMeasurement now measurement db)))
  /\ (forall key db,
        Db.well_keyed db -> Db.well_keyed (Db.deleteMeasurement key db)).
Proof.
  split; [|split].
  - split; [constructor | intros r []].
  - intros now m db [Hd Hb]. unfold Db.addMeasurement.
    set (key := match Db.new_id m with
                | Some k => k
                | None => Db.nextMeasurementKey db
                end).
    destruct (existsb _ _) eqn:E; [now split|].
    cbn [snd]. split; cbn [Db.measurements Db.nextMeasurementKey].
    + rewrite map_app. cbn [map Db.id].
      apply NoDup_app; [exact Hd | repeat constructor; intros [] |].
      intros k Hk [<-|[]]. apply in_map_iff in Hk as (r & Hr & Hin).
      assert (X : existsb (fun r => Db.id r =? key) (Db.measurements db) = true).
      { apply existsb_exists. exists r. split; [exact Hin|]. now apply Z.eqb_eq. }
      congruence.
    + intros r Hr. apply in_app_iff in Hr as [Hr|[<-|[]]].
      * specialize (Hb r Hr). lia.
      * cbn [Db.id]. lia.
  - intros key db [Hd Hb]. split; cbn [Db.deleteMeasurement Db.measurements
                                         Db.nextMeasurementKey].
    + now apply keys_of_kept_rows.
    + intros r Hr. apply filter_In in Hr as [Hr _]. now apply Hb.
Qed.

(** X19: an [addMeasurement] whose object carries the key of a stored record
    is rejected with [ConstraintError], and the database is unchanged. *)
Theorem addMeasurement_taken_key
  (now : Z) (measurement : Db.NewMeasurement) (db : Db.Store)
  (r : Db.MeasurementRecord) :
  In r (Db.measurements db) ->
  Db.new_id measurement = Some (Db.id r) ->
  Db.addMeasurement now measurement db = (Throw (DOMException "ConstraintError"), db).
Proof.
  intros Hin Hid. unfold Db.addMeasurement. rewrite Hid.
  assert (X : existsb (fun r0 => Db.id r0 =? Db.id r) (Db.measurements db) = true).
  { apply existsb_exists. exists r. split; [exact Hin | apply Z.eqb_refl]. }
  now rewrite X.
Qed.

(** X20: the key of a deleted measurement is not handed out again: after
    the deletion, a measurement added without a key gets the next number of
    the key generator, which is above the deleted key. *)
Theorem deleted_key_not_reused
  (now : Z) (measurement : Db.NewMeasurement) (db : Db.Store)
  (r : Db.MeasurementRecord) :
  Db.well_keyed db ->
  In r (Db.measurements db) ->
  Db.new_id measurement = None ->
  Db.id r < Db.nextMeasurementKey db
  /\ fst (Db.addMeasurement now measurement (Db.deleteMeasurement (Db.id r) db))
     = Normal (Db.nextMeasurementKey db).
Proof.
  intros W Hin Hid. split; [now apply W|].
  unfold Db.addMeasurement. rewrite Hid.
  pose proof (key_is_free (Db.deleteMeasurement (Db.id r) db)) as F.
  cbn [Db.deleteMeasurement Db.nextMeasurementKey Db.measurements] in *.
  rewrite F; [reflexivity|].
  split; cbn [Db.measurements Db.nextMeasurementKey].
  - apply keys_of_kept_rows, W.
  - intros z Hz. apply filter_In in Hz as [Hz _]. now apply W.
Qed.

Lemma addMeasurement_taken_key_witness :
  let r := {| Db.id := 1; Db.userId := Some 1; Db.weight := 71%float;
              Db.bmi := 23.2%float; Db.createdAt := 1000 |} in
  let measurement := {| Db.new_id := Some 1; Db.new_userId := Some 1;
                        Db.new_weight := 70%float; Db.new_bmi := 22.9%float;
                        Db.new_createdAt := None |} in
  In r (Db.measurements two_measurements)
  /\ Db.new_id measurement = Some (Db.id r)
  /\ Db.addMeasurement 3000 measurement two_measurements
     = (Throw (DOMException "ConstraintError"), two_measurements).
Proof.
  intros r measurement.
  assert (Hin : In r (Db.measurements two_measurements)) by (left; reflexivity).
  split; [exact Hin|]. split; [reflexivity|].
  exact (addMeasurement_taken_key 3000 measurement two_measurements r Hin eq_refl).
Defined.

Lemma deleted_key_not_reused_witness :
  let r := {| Db.id := 2; Db.userId := Some 1; Db.weight := 70.5%float;
              Db.bmi := 23%float; Db.createdAt := 2000 |} in
  Db.well_keyed two_measurements
  /\ In r (Db.measurements two_measurements)
  /\ Db.new_id a_measurement = None
  /\ Db.id r < Db.nextMeasurementKey two_measurements
  /\ fst (Db.addMeasurement 3000 a_measurement
            (Db.deleteMeasurement (Db.id r) two_measurements))
     = Normal (Db.nextMeasurementKey two_measurements).
Proof.
  intros r.
  assert (Hin : In r (Db.measurements two_measurements))
    by (right; left; reflexivity).
  split; [exact two_measurements_well_keyed|]. split; [exact Hin|].
  split; [reflexivity|].
  exact (deleted_key_not_reused 3000 a_measurement two_measurements r
           two_measurements_well_keyed Hin eq_refl).
Defined.

(** *** Profiles *)

Lemma first_by_id_cons (u : Db.User) (l : list Db.User) :
  exists v, Db.first_by_id (u :: l) = Some v.
Proof.
  cbn [Db.first_by_id]. destruct (Db.first_by_id l) as [v|]; [|now exists u].
  destruct (Db.user_id u), (Db.user_id v); try (now exists v).
  destruct (_ <=? _); [now exists u | now exists v].
Qed.

Lemma first_by_id_after (k : Z) (stored : Db.User) (l : list Db.User) :
  Db.user_id stored = Some k ->
  (forall u, In u l -> exists a, Db.user_id u = Some a /\ a < k) ->
  l <> [] ->
  Db.first_by_id (l ++ [stored]) = Db.first_by_id l.
Proof.
  intros Hs. induction l as [|u l IH]; [congruence|]. intros H _.
  destruct (H u (or_introl eq_refl)) as (a & Ha & Hak).
  destruct l as [|w l].
  - cbn [app Db.first_by_id]. rewrite Ha, Hs.
    now replace (a <=? k) with true by (symmetry; apply Z.leb_le; lia).
  - change ((u :: w :: l) ++ [stored]) with (u :: ((w :: l) ++ [stored])).
    cbn [Db.first_by_id]. fold (Db.first_by_id ((w :: l) ++ [stored])).
    fold (Db.first_by_id (w :: l)).
    rewrite IH; [reflexivity | | discriminate].
    intros v Hv. apply H. now right.
Qed.

Lemma first_by_id_before (k : Z) (stored : Db.User) (l : list Db.User) :
  Db.user_id stored = Some k ->
  (forall u, In u l -> exists a, Db.user_id u = Some a /\ k < a) ->
  Db.first_by_id (l ++ [stored]) = Some stored.
Proof.
  intros Hs. induction l as [|u l IH]; intros H; [reflexivity|].
  change ((u :: l) ++ [stored]) with (u :: (l ++ [stored])).
  cbn [Db.first_by_id]. fold (Db.first_by_id (l ++ [stored])).
  rewrite IH by (intros v Hv; apply H; now right).
  destruct (H u (or_introl eq_refl)) as (a & Ha & Hak).
  rewrite Ha, Hs.
  now replace (a <=? k) with false by (symmetry; apply Z.leb_gt; lia).
Qed.

(** The profile [first_by_id] gives has the smallest key. *)
Lemma first_by_id_least (l : list Db.User) (u0 : Db.User) (k0 : Z) :
  (forall u, In u l -> exists a, Db.user_id u = Some a) ->
  Db.first_by_id l = Some u0 ->
  Db.user_id u0 = Some k0 ->
  In u0 l /\ forall u a, In u l -> Db.user_id u = Some a -> k0 <= a.
Proof.
  revert u0 k0. induction l as [|u l IH]; [discriminate|].
  intros u0 k0 Hall. cbn [Db.first_by_id].
  destruct (Hall u (or_introl eq_refl)) as (a & Ha).
  destruct (Db.first_by_id l) as [v|] eqn:F.
  - assert (Hall' : forall w, In w l -> exists b, Db.user_id w = Some b)
      by (intros w Hw; apply Hall; now right).
    destruct l as [|w l']; [discriminate|].
    assert (Hv : exists b, Db.user_id v = Some b).
    { specialize (IH v). destruct (Db.user_id v) as [b|] eqn:Vb; [now exists b|].
      exfalso. clear IH.
      assert (In v (w :: l')).
      { clear -F. revert v F. induction (w :: l') as [|x t IHt]; [discriminate|].
        intros v. cbn [Db.first_by_id]. destruct (Db.first_by_id t) as [y|].
        - destruct (Db.user_id x), (Db.user_id y);
            try (intros E; injection E as <-; right; now apply IHt).
          destruct (_ <=? _); intros E; injection E as <-;
            [now left | right; now apply IHt].
        - intros E; injection E as <-. now left. }
      destruct (Hall' v H) as (b & Hb). congruence. }
    destruct Hv as (b & Hb). rewrite Ha, Hb.
    destruct (IH v b Hall' eq_refl Hb) as [Hin Hmin].
    destruct (Z.leb_spec a b) as [Hab|Hab]; intros E K; injection E as <-.
    + assert (k0 = a) by congruence. subst. split; [now left|].
      intros z c [<-|Hz] Hc; [assert (c = a) by congruence; lia|].
      specialize (Hmin z c Hz Hc). lia.
    + assert (k0 = b) by congruence. subst. split; [now right|].
      intros z c [<-|Hz] Hc; [assert (c = a) by congruence; lia|].
      now apply (Hmin z c).
  - destruct l as [|w l']; [|destruct (first_by_id_cons w l'); congruence].
    intros E K; injection E as <-. split; [now left|].
    intros z c [<-|[]] Hc. assert (c = k0) by congruence. lia.
Qed.

Lemma filter_other_keys (k : Z) (l : list Db.User) :
  (forall u, In u l -> exists a, Db.user_id u = Some a /\ a < k) ->
  filter (fun u => negb (Db.has_key k u)) l = l.
Proof.
  intros H. apply filter_all. intros u Hu.
  destruct (H u Hu) as (a & Ha & Hak). unfold Db.has_key. rewrite Ha.
  apply negb_true_iff, Z.eqb_neq. lia.
Qed.

(** X21: [saveUser] of a profile without key stores it under the next key
    and returns that key.  If no profile was stored, [getUser] then gives the
    new profile, with its key; if one was, [getUser] still gives the old one:
    a second profile never becomes the current user. *)
Theorem saveUser_new_profile (user : Db.User) (db : Db.Store) :
  Db.users_well_keyed db ->
  Db.user_id user = None ->
  exists db' : Db.Store,
    Db.saveUser user db = (Normal (Db.nextUserKey db), db')
    /\ (Db.getUser db = None ->
        Db.getUser db' = Some (with_key (Db.nextUserKey db) user))
    /\ (forall u0, Db.getUser db = Some u0 -> Db.getUser db' = Some u0)
    /\ Db.users_well_keyed db'.
Proof.
  intros W Hid. unfold Db.saveUser. rewrite Hid. eexists.
  split; [reflexivity|].
  unfold Db.getUser; cbn [Db.users Db.nextUserKey].
  rewrite (filter_other_keys _ _ W). fold (with_key (Db.nextUserKey db) user).
  split; [|split].
  - destruct (Db.users db) as [|u l]; [reflexivity|].
    destruct (first_by_id_cons u l); congruence.
  - intros u0 H0.
    rewrite (first_by_id_after (Db.nextUserKey db)); [exact H0|reflexivity|exact W|].
    intros E. rewrite E in H0. discriminate.
  - intros u Hu. cbn [Db.users Db.nextUserKey] in *.
    apply in_app_iff in Hu as [Hu|[<-|[]]].
    + destruct (W u Hu) as (a & Ha & Hak). exists a. split; [exact Ha|lia].
    + exists (Db.nextUserKey db). split; [reflexivity|lia].
Qed.

Lemma saveUser_new_profile_witness :
  Db.users_well_keyed Db.empty
  /\ Db.user_id a_profile = None
  /\ exists db' : Db.Store,
      Db.saveUser a_profile Db.empty = (Normal 1, db')
      /\ Db.getUser db' = Some (with_key 1 a_profile).
Proof.
  assert (W : Db.users_well_keyed Db.empty) by (intros u []).
  split; [exact W|]. split; [reflexivity|].
  destruct (saveUser_new_profile a_profile Db.empty W eq_refl)
    as (db' & Hs & Hnew & _).
  exists db'. split; [exact Hs | now apply Hnew].
Defined.

(** X22: [saveUser] of a profile that carries the key of the current user
    replaces it: [getUser] then gives the saved profile. *)
Theorem saveUser_updates_current (user u0 : Db.User) (k : Z) (db : Db.Store) :
  Db.users_well_keyed db ->
  Db.getUser db = Some u0 ->
  Db.user_id u0 = Some k ->
  Db.user_id user = Some k ->
  Db.saveUser user db = (Normal k, snd (Db.saveUser user db))
  /\ Db.getUser (snd (Db.saveUser user db)) = Some user.
Proof.
  intros W H0 Hk0 Hk. unfold Db.saveUser. rewrite Hk. cbn [snd].
  split; [reflexivity|].
  unfold Db.getUser in *; cbn [Db.users].
  assert (Hall : forall u, In u (Db.users db) -> exists a, Db.user_id u = Some a).
  { intros u Hu. destruct (W u Hu) as (a & Ha & _). now exists a. }
  destruct (first_by_id_least _ u0 k Hall H0 Hk0) as [Hin Hmin].
  replace {| Db.user_id := Some k; Db.name := Db.name user;
             Db.height := Db.height user;
             Db.targetWeight := Db.targetWeight user |} with user
    by (destruct user; cbn in *; congruence).
  apply (first_by_id_before k); [exact Hk|].
  intros u Hu. apply filter_In in Hu as [Hu Hne].
  destruct (Hall u Hu) as (a & Ha). exists a. split; [exact Ha|].
  specialize (Hmin u a Hu Ha).
  unfold Db.has_key in Hne. rewrite Ha in Hne.
  apply negb_true_iff, Z.eqb_neq in Hne. lia.
Qed.

Lemma saveUser_updates_current_witness :
  let db := snd (Db.saveUser a_profile Db.empty) in
  let taller := {| Db.user_id := Some 1; Db.name := "Eva"%string;
                   Db.height := Num 169; Db.targetWeight := Num 60 |} in
  Db.users_well_keyed db
  /\ Db.getUser db = Some (with_key 1 a_profile)
  /\ Db.user_id (with_key 1 a_profile) = Some 1
  /\ Db.user_id taller = Some 1
  /\ Db.getUser (snd (Db.saveUser taller db)) = Some taller.
Proof.
  intros db taller.
  assert (W : Db.users_well_keyed db).
  { intros u [<-|[]]. exists 1. split; reflexivity. }
  split; [exact W|]. do 3 (split; [reflexivity|]).
  exact (proj2 (saveUser_updates_current taller (with_key 1 a_profile) 1 db
                  W eq_refl eq_refl eq_refl)).
Defined.

(** ** The application *)

Import App.

Lemma startWeighing_catch_spec (browser : Browser) (err : Thrown) (w : World) :
  let w' := startWeighing_catch browser err w in
  scanning w' = false
  /\ alerts w' = alerts w ++ [failure_message browser]
  /\ console w' = console w ++ [err]
  /\ cleanup w' = cleanup w /\ link w' = link w /\ db w' = db w
  /\ measurements w' = measurements w /\ latestWeight w' = latestWeight w.
Proof.
  unfold startWeighing_catch, failure_message.
  destruct (isIOS browser); [repeat split|].
  destruct (bluetooth browser); repeat split.
Qed.

Lemma failed_subscription_streams {A}
  (device : Peripheral) (onData : Measurement -> A) (s s' : State A) (e : Error) :
  subscribeToWeight device onData s = (Throw e, s') ->
  notifying s' = notifying s /\ listeners s' = listeners s.
Proof.
  run_gatt. destruct (connect_answer device); run_gatt.
  - destruct (service_answer device 6173); run_gatt.
    + destruct (characteristic_answer device 6173 10909); run_gatt;
        [destruct (notify_answer device 6173 10909); [discriminate|]|];
        intros H; injection H as <- <-; split; reflexivity.
    + destruct (service_answer device 6171); run_gatt;
        [destruct (characteristic_answer device 6171 10908); run_gatt;
         [destruct (notify_answer device 6171 10908); [discriminate|]|]|];
        intros H; injection H as <- <-; split; reflexivity.
  - intros H; injection H as <- <-; split; reflexivity.
Qed.

(** X23: [startWeighing] either reaches the point where it waits for
    notifications, or ends in its [catch] block.  In the first case, which
    is the one where the chooser hands back a device and [subscribeToWeight]
    succeeds on it, [scanning] is set, nothing is shown or logged, the
    teardown kept in [cleanup] is the one [subscribeToWeight] returned and
    the link is the one it left: connected, with a stream and the listener on
    one of the two supported characteristics; running that teardown closes
    it.  In the second case [scanning] is reset, exactly one alert is shown
    (the iOS message on an iOS device, else the unsupported-browser message
    without Web Bluetooth, else the connection message), no teardown is
    assigned and no stream or listener is left.  It never touches the
    database or the measurements shown. *)
Theorem startWeighing_outcome (browser : Browser) (w : World) :
  (forall requestDevice device teardown l,
      bluetooth browser = Some requestDevice ->
      requestDevice requested_options = Normal device ->
      subscribeToWeight device (fun data => data) (link w) = (Normal teardown, l) ->
      scanning (startWeighing browser w) = true
      /\ alerts (startWeighing browser w) = alerts w
      /\ console (startWeighing browser w) = console w
      /\ cleanup (startWeighing browser w) = Some teardown
      /\ link (startWeighing browser w) = l
      /\ connected (link (startWeighing browser w)) = true
      /\ (exists p : Z * Z,
            (p = weight_scale_pair \/ p = body_composition_pair)
            /\ notifying (link (startWeighing browser w)) = p :: notifying (link w)
            /\ listeners (link (startWeighing browser w))
               = listeners (link w) ++ [(p, onValueChanged (fun data => data))])
      /\ connected (snd (teardown (link (startWeighing browser w)))) = false
      /\ notifying (snd (teardown (link (startWeighing browser w)))) = [])
  /\ (~ subscribes browser w ->
      scanning (startWeighing browser w) = false
      /\ alerts (startWeighing browser w) = alerts w ++ [failure_message browser]
      /\ cleanup (startWeighing browser w) = cleanup w
      /\ notifying (link (startWeighing browser w)) = notifying (link w)
      /\ listeners (link (startWeighing browser w)) = listeners (link w))
  /\ db (startWeighing browser w) = db w
  /\ measurements (startWeighing browser w) = measurements w
  /\ latestWeight (startWeighing browser w) = latestWeight w.
Proof.
  unfold startWeighing, requestScale, subscribes. fold requested_options.
  destruct (bluetooth browser) as [requestDevice|] eqn:B.
  - destruct (requestDevice requested_options) as [device|e] eqn:R.
    + destruct (subscribeToWeight device _ _) as [[td|e] l] eqn:S;
        cbn [link with_console setScanning] in S.
      * split; [|split; [|repeat split]].
        -- intros rd d td' l' E1 E2 E3.
           assert (rd = requestDevice) by congruence. subst rd.
           assert (d = device) by congruence. subst d.
           assert (td' = td /\ l' = l) as [-> ->] by (split; congruence).
           destruct (subscribeToWeight_returns _ _ _ _ _ S)
             as (c & -> & Hp & Hc & Hn & Hl).
           cbn [scanning alerts console cleanup link with_cleanup with_link
                  with_console setScanning].
           do 5 (split; [reflexivity|]). split; [exact Hc|].
           split; [exists (identity c); auto|].
           rewrite teardown_run. split; reflexivity.
        -- intros H. exfalso. apply H. now exists requestDevice, device, td, l.
      * destruct (failed_subscription_streams _ _ _ _ _ S) as [Fn Fl].
        match goal with
        | |- context [startWeighing_catch browser ?t ?x] =>
            pose proof (startWeighing_catch_spec browser t x)
              as (C1 & C2 & C3 & C4 & C5 & C6 & C7 & C8)
        end.
        cbn zeta in *.
        split; [|split; [|split; [|split]]].
        -- intros rd d td l' E1 E2 E3.
           assert (rd = requestDevice) by congruence. subst rd.
           assert (d = device) by congruence. subst d. congruence.
        -- intros _. rewrite C1, C2, C4, C5. repeat split; assumption.
        -- now rewrite C6.
        -- now rewrite C7.
        -- now rewrite C8.
    + match goal with
      | |- context [startWeighing_catch browser ?t ?x] =>
          pose proof (startWeighing_catch_spec browser t x)
            as (C1 & C2 & C3 & C4 & C5 & C6 & C7 & C8)
      end.
      cbn zeta in *.
      split; [|split; [|split; [|split]]].
      * intros rd d td l' E1 E2 E3.
        assert (rd = requestDevice) by congruence. subst rd. congruence.
      * intros _. rewrite C1, C2, C4, C5. repeat split.
      * now rewrite C6.
      * now rewrite C7.
      * now rewrite C8.
  - match goal with
    | |- context [startWeighing_catch browser ?t ?x] =>
        pose proof (startWeighing_catch_spec browser t x)
          as (C1 & C2 & C3 & C4 & C5 & C6 & C7 & C8)
    end.
    cbn zeta in *.
    split; [|split; [|split; [|split]]].
    + intros rd d td l' E1. discriminate.
    + intros _. rewrite C1, C2, C4, C5. repeat split.
    + now rewrite C6.
    + now rewrite C7.
    + now rewrite C8.
Qed.

Lemma failed_subscription_connected {A}
  (device : Peripheral) (onData : Measurement -> A) (s s' : State A) (e : Error) :
  connect_answer device = Normal tt ->
  subscribeToWeight device onData s = (Throw e, s') ->
  connected s' = true.
Proof.
  intros Hc. run_gatt. rewrite Hc. run_gatt.
  destruct (service_answer device 6173); run_gatt.
  - destruct (characteristic_answer device 6173 10909); run_gatt;
      [destruct (notify_answer device 6173 10909); [discriminate|]|];
      intros H; injection H as <- <-; reflexivity.
  - destruct (service_answer device 6171); run_gatt;
      [destruct (characteristic_answer device 6171 10908); run_gatt;
       [destruct (notify_answer device 6171 10908); [discriminate|]|]|];
      intros H; injection H as <- <-; reflexivity.
Qed.

(** X24: when [subscribeToWeight] fails on a device it has connected to,
    [startWeighing] reports the failure, with [scanning] reset, one alert and
    the error on the console, and leaves the connection open: its [catch]
    block does not disconnect. *)
Theorem startWeighing_failure_keeps_connection
  (browser : Browser) (w : World)
  (requestDevice : RequestDeviceOptions -> completion Peripheral)
  (device : Peripheral) (e : Error) (l : State Measurement) :
  bluetooth browser = Some requestDevice ->
  requestDevice requested_options = Normal device ->
  connect_answer device = Normal tt ->
  subscribeToWeight device (fun data => data) (link w) = (Throw e, l) ->
  scanning (startWeighing browser w) = false
  /\ alerts (startWeighing browser w) = alerts w ++ [failure_message browser]
  /\ console (startWeighing browser w) = console w ++ [Platform e]
  /\ link (startWeighing browser w) = l
  /\ connected (link (startWeighing browser w)) = true.
Proof.
  intros B R C S.
  pose proof (failed_subscription_connected device _ _ _ e C S) as K.
  unfold startWeighing, requestScale. fold requested_options. rewrite B, R.
  cbn [link with_console setScanning]. rewrite S.
  match goal with
  | |- context [startWeighing_catch browser ?t ?x] =>
      pose proof (startWeighing_catch_spec browser t x)
        as (C1 & C2 & C3 & C4 & C5 & C6 & C7 & C8)
  end.
  cbn zeta in *. rewrite C1, C2, C3, C5. repeat split. exact K.
Qed.

Lemma startWeighing_failure_keeps_connection_witness :
  let w := mounted Db.empty in
  let l : State Measurement :=
    {| connected := true; notifying := []; listeners := [];
       calls := [Connect; GetPrimaryService 0x181d; GetPrimaryService 0x181b] |} in
  bluetooth (browser_choosing heart_rate_monitor)
  = Some (fun _ => Normal heart_rate_monitor)
  /\ connect_answer heart_rate_monitor = Normal tt
  /\ subscribeToWeight heart_rate_monitor (fun data => data) (link w)
     = (Throw (DOMException "NotFoundError"), l)
  /\ scanning (startWeighing (browser_choosing heart_rate_monitor) w) = false
  /\ alerts (startWeighing (browser_choosing heart_rate_monitor) w)
     = [connect_message]
  /\ connected (link (startWeighing (browser_choosing heart_rate_monitor) w)) = true.
Proof.
  intros w l.
  destruct (startWeighing_failure_keeps_connection
              (browser_choosing heart_rate_monitor) w
              (fun _ => Normal heart_rate_monitor) heart_rate_monitor
              (DOMException "NotFoundError") l
              eq_refl eq_refl eq_refl eq_refl)
    as (H1 & H2 & _ & _ & H5).
  do 3 (split; [reflexivity|]). split; [exact H1|]. split; [exact H2|exact H5].
Defined.

(** X25: what the callback records.  For a stable measurement, with a
    profile loaded and the teardown assigned, and at a date no stored record
    is later than, the callback stores one record carrying the weight and the
    index [calculateBMI] gives for the height of the profile; shows it at the
    head of the measurements, before the ones shown until then; shows its
    weight as the latest; runs the teardown, after which the connection is
    closed and no notification stream is left; and resets [scanning]. *)
Theorem onData_records
  (now : Z) (data : Measurement) (w : World) (profile : Db.User)
  (c : Characteristic) (server : Server) :
  user w = Some profile ->
  cleanup w = Some (teardown c server) ->
  isStable data = true ->
  Db.well_keyed (db w) ->
  (forall r, In r (Db.measurements (db w)) -> Db.createdAt r <= now) ->
  let record :=
    {| Db.id := Db.nextMeasurementKey (db w);
       Db.userId := Db.user_id profile;
       Db.weight := weight data;
       Db.bmi := calculateBMI (Num (weight data)) (Db.height profile);
       Db.createdAt := now |} in
  Db.measurements (db (onData now data w)) = Db.measurements (db w) ++ [record]
  /\ measurements (onData now data w)
     = record :: Db.getMeasurements (Some 9%nat) (db w)
  /\ latestWeight (onData now data w) = Num (weight data)
  /\ scanning (onData now data w) = false
  /\ connected (link (onData now data w)) = false
  /\ notifying (link (onData now data w)) = [].
Proof.
  intros U C St W Hnow record. unfold onData.
  cbn [user db cleanup link setLatestWeight]. rewrite St, U.
  unfold Db.addMeasurement. cbn [Db.new_id]. rewrite (key_is_free (db w) W).
  cbn [with_db db setMeasurements setLatestWeight cleanup link Db.new_userId
         Db.new_weight Db.new_bmi]. rewrite C, teardown_run.
  cbn [setScanning with_link with_db setMeasurements setLatestWeight db
         measurements latestWeight scanning link connected notifying
         Db.measurements].
  fold record. split; [reflexivity|]. split; [|repeat split].
  unfold Db.getMeasurements; cbn [Db.measurements].
  rewrite newest_first_latest; [reflexivity|].
  intros y Hy. cbn [record Db.createdAt Db.id].
  split; [now apply Hnow | now apply W].
Qed.

Lemma onData_records_witness :
  let w := weighing two_measurements (with_key 1 a_profile) in
  let data := reading false 14000 in
  user w = Some (with_key 1 a_profile)
  /\ cleanup w = Some (teardown (weight_scale_characteristic mi_scale_2)
                         {| server_device := mi_scale_2 |})
  /\ isStable data = true
  /\ Db.well_keyed (db w)
  /\ (forall r, In r (Db.measurements (db w)) -> Db.createdAt r <= 3000)
  /\ measurements (onData 3000 data w)
     = {| Db.id := 3; Db.userId := Some 1; Db.weight := 70%float;
          Db.bmi := 24.8%float; Db.createdAt := 3000 |}
       :: Db.getMeasurements (Some 9%nat) two_measurements
  /\ scanning (onData 3000 data w) = false
  /\ connected (link (onData 3000 data w)) = false.
Proof.
  intros w data.
  assert (Hnow : forall r, In r (Db.measurements (db w)) -> Db.createdAt r <= 3000).
  { intros r [<-|[<-|[]]]; vm_compute; discriminate. }
  destruct (onData_records 3000 data w (with_key 1 a_profile)
              (weight_scale_characteristic mi_scale_2)
              {| server_device := mi_scale_2 |}
              eq_refl eq_refl eq_refl two_measurements_well_keyed Hnow)
    as (_ & H2 & _ & H4 & H5 & _).
  do 3 (split; [reflexivity|]). split; [exact two_measurements_well_keyed|].
  split; [exact Hnow|]. split; [|split; [exact H4 | exact H5]].
  rewrite H2. vm_compute. reflexivity.
Defined.

(** X26: which notifications reach the callback.  With the listener of
    [startWeighing] as the only one registered: a frame shorter than 3 bytes
    changes nothing; on a closed connection, so after the teardown, no frame
    changes anything; and on an open connection with an active stream, a
    frame of 3 bytes or more is decoded and handed to the callback, always as
    stable. *)
Theorem onNotification_cases
  (now : Z) (p : Z * Z) (value : DataView) (w : World) :
  listeners (link w) = [(p, onValueChanged (fun data => data))] ->
  (byteLength value < 3 -> onNotification now p value w = w)
  /\ (connected (link w) = false -> onNotification now p value w = w)
  /\ (connected (link w) = true -> In p (notifying (link w)) ->
      3 <= byteLength value ->
      exists m, parseScaleData value = Normal (Some m)
                /\ isStable m = true
                /\ onNotification now p value w = onData now m w).
Proof.
  intros L. unfold onNotification, notify. rewrite L.
  cbn [filter fst]. rewrite pair_eqb_refl. cbn [map snd].
  split; [|split].
  - intros H. rewrite (onValueChanged_drops_rejected _ value H).
    now destruct (_ && _).
  - intros H. rewrite H. reflexivity.
  - intros Hc Hn Hlen. rewrite Hc.
    assert (E : existsb (pair_eqb p) (notifying (link w)) = true).
    { apply existsb_exists. exists p. split; [exact Hn | apply pair_eqb_refl]. }
    rewrite E. cbn [andb fold_left].
    destruct value as [|a [|b [|c rest]]];
      try (unfold byteLength in Hlen; simpl in Hlen; lia).
    eexists. split; [apply parseScaleData_cons3|]. split; [reflexivity|].
    unfold onValueChanged. rewrite parseScaleData_cons3. reflexivity.
Qed.

Lemma onNotification_cases_witness :
  let w := weighing two_measurements (with_key 1 a_profile) in
  listeners (link w) = [(weight_scale_pair, onValueChanged (fun data => data))]
  /\ byteLength [x00; x58] < 3
  /\ onNotification 3000 weight_scale_pair [x00; x58] w = w
  /\ connected (link w) = true
  /\ In weight_scale_pair (notifying (link w))
  /\ 3 <= byteLength [x00; xb0; x36]
  /\ exists m, parseScaleData [x00; xb0; x36] = Normal (Some m)
               /\ isStable m = true
               /\ onNotification 3000 weight_scale_pair [x00; xb0; x36] w
                  = onData 3000 m w.
Proof.
  intros w.
  destruct (onNotification_cases 3000 weight_scale_pair [x00; x58] w eq_refl)
    as (H1 & _).
  destruct (onNotification_cases 3000 weight_scale_pair [x00; xb0; x36] w eq_refl)
    as (_ & _ & H3).
  split; [reflexivity|]. split; [reflexivity|].
  split; [apply H1; reflexivity|]. split; [reflexivity|].
  split; [left; reflexivity|]. split; [discriminate|].
  apply H3; [reflexivity | left; reflexivity | discriminate].
Defined.



(** ** Instances of the statements above that carry their conditions inside *)

Lemma getMeasurements_window_witness :
  (1 <= limit_of None)%nat
  /\ Db.getMeasurements (Some 1%nat) two_measurements
     = firstn 1 (Db.getMeasurements None two_measurements)
  /\ (List.length (Db.measurements two_measurements) <= limit_of None)%nat
  /\ Permutation (Db.getMeasurements None two_measurements)
       (Db.measurements two_measurements).
Proof.
  destruct (getMeasurements_window None two_measurements)
    as (_ & _ & _ & Hprefix & Hall).
  assert (H1 : (1 <= limit_of None)%nat) by (cbn; lia).
  assert (H2 : (List.length (Db.measurements two_measurements) <= limit_of None)%nat)
    by (cbn; lia).
  split; [exact H1|]. split; [exact (Hprefix 1%nat H1)|].
  split; [exact H2 | exact (Hall H2)].
Defined.

Lemma deleteMeasurement_then_getMeasurements_witness :
  (forall r, In r (Db.measurements two_measurements) -> Db.id r <> 5)
  /\ Db.deleteMeasurement 5 two_measurements = two_measurements
  /\ Db.getMeasurements (Some 10%nat) (Db.deleteMeasurement 2 two_measurements)
     = [{| Db.id := 1; Db.userId := Some 1; Db.weight := 71%float;
           Db.bmi := 23.2%float; Db.createdAt := 1000 |}].
Proof.
  destruct (deleteMeasurement_then_getMeasurements 5 None two_measurements)
    as (_ & _ & Habsent & _).
  destruct (deleteMeasurement_then_getMeasurements 2 (Some 10%nat) two_measurements)
    as (Hlist & _).
  assert (H : forall r, In r (Db.measurements two_measurements) -> Db.id r <> 5).
  { intros r [<-|[<-|[]]]; vm_compute; discriminate. }
  split; [exact H|]. split; [exact (Habsent H)|].
  rewrite Hlist. reflexivity.
Defined.

Lemma measurement_keys_invariant_witness :
  Db.well_keyed two_measurements
  /\ Db.well_keyed (snd (Db.addMeasurement 3000 a_measurement two_measurements))
  /\ Db.well_keyed (Db.deleteMeasurement 1 two_measurements).
Proof.
  destruct measurement_keys_invariant as (_ & Hadd & Hdel).
  split; [exact two_measurements_well_keyed|].
  split; [apply Hadd | apply Hdel]; exact two_measurements_well_keyed.
Defined.

Lemma startWeighing_outcome_witness :
  let w := mounted Db.empty in
  let started := startWeighing (browser_choosing mi_scale_2) w in
  let failed := startWeighing (browser_choosing heart_rate_monitor) w in
  subscribeToWeight mi_scale_2 (fun data => data) (link w)
  = (Normal (teardown (weight_scale_characteristic mi_scale_2)
               {| server_device := mi_scale_2 |}),
     snd (subscribeToWeight mi_scale_2 (fun data => data) initial))
  /\ scanning started = true
  /\ alerts started = []
  /\ cleanup started
     = Some (teardown (weight_scale_characteristic mi_scale_2)
               {| server_device := mi_scale_2 |})
  /\ link started = snd (subscribeToWeight mi_scale_2 (fun data => data) initial)
  /\ connected (link started) = true
  /\ ~ subscribes (browser_choosing heart_rate_monitor) w
  /\ scanning failed = false
  /\ alerts failed = [connect_message]
  /\ cleanup failed = None
  /\ listeners (link failed) = [].
Proof.
  intros w started failed.
  assert (S : subscribeToWeight mi_scale_2 (fun data => data) (link w)
              = (Normal (teardown (weight_scale_characteristic mi_scale_2)
                           {| server_device := mi_scale_2 |}),
                 snd (subscribeToWeight mi_scale_2 (fun data => data) initial)))
    by reflexivity.
  assert (N : ~ subscribes (browser_choosing heart_rate_monitor) w).
  { intros (rd & d & td & l & E1 & E2 & E3).
    injection E1 as <-. injection E2 as <-. discriminate E3. }
  destruct (startWeighing_outcome (browser_choosing mi_scale_2) w) as (Hyes & _).
  destruct (startWeighing_outcome (browser_choosing heart_rate_monitor) w)
    as (_ & Hno & _).
  destruct (Hyes _ _ _ _ eq_refl eq_refl S) as (Y1 & Y2 & _ & Y4 & Y5 & Y6 & _).
  destruct (Hno N) as (N1 & N2 & N3 & _ & N5).
  split; [exact S|]. split; [exact Y1|]. split; [exact Y2|]. split; [exact Y4|].
  split; [exact Y5|]. split; [exact Y6|]. split; [exact N|]. split; [exact N1|].
  split; [exact N2|]. split; [exact N3 | exact N5].
Defined.

